(** * NEO: near-Earth objects and their close approaches

    A shallow embedding of [models.py], [extract.py] and [write.py].

    Python values are an inductive type, keyword arguments and dictionaries
    are finite maps from strings, a Python float is an IEEE 754 binary64
    value ([spec_float] at precision 53), and a call that may raise returns
    a result that is either a value or the exception raised.  What the
    interpreter itself does with text (parsing a float, [repr]) and the two
    functions of [helpers.py], which the source imports, are interfaces.

    The embedding follows the statements of each function body, in their
    order of evaluation. The layout of the source text, where some
    docstrings and one [with] block are indented apart from the body they
    belong to, is not modelled. *)

From Stdlib Require Import ZArith String Ascii List Bool Lia DecimalString.
From Stdlib Require Import Floats.SpecFloat.
From stdpp Require Import base option list gmap strings fin_maps.

Set Warnings "-register-all".

(** ** Exceptions and results *)

Inductive exn : Type :=
  | ValueError
  | TypeError
  | KeyError (key : string)
  | NameError (ident : string)
  | AttributeError (attr : string)
  | OverflowError.

Inductive res (A : Type) : Type :=
  | Ok (a : A)
  | Raise (e : exn).

Arguments Ok {A} a.
Arguments Raise {A} e.

#[global] Instance res_ret : MRet res := fun A a => Ok a.
#[global] Instance res_bind : MBind res := fun A B f m =>
  match m with
  | Ok a => f a
  | Raise e => Raise e
  end.

Definition raises {A} (m : res A) : Prop := exists e, m = Raise e.

Definition returns {A} (m : res A) : Prop := exists a, m = Ok a.

(** ** Floats *)

Definition nan : spec_float := S754_nan.

(** [math.isnan] *)
Definition isnan (f : spec_float) : bool :=
  match f with
  | S754_nan => true
  | _ => false
  end.

Definition isfinite (f : spec_float) : bool :=
  match f with
  | S754_zero _ | S754_finite _ _ _ => true
  | _ => false
  end.

(** [float(n)] for an integer [n]: the nearest binary64, or [OverflowError]
    when that is out of range. *)
Definition float_of_int (z : Z) : res spec_float :=
  match binary_normalize 53 1024 z 0 false with
  | S754_infinity _ => Raise OverflowError
  | f => Ok f
  end.

(** The binary64 nearest to the fraction [n / d]. *)
Definition float_of_ratio (n d : positive) : spec_float :=
  SFdiv 53 1024 (S754_finite false n 0) (S754_finite false d 0).

(** ** Decimal text *)

Definition digit_char (d : N) : ascii := ascii_of_N (48 + d).

Definition is_digit (c : ascii) : bool :=
  let n := N_of_ascii c in ((48 <=? n) && (n <=? 57))%N.

(** The [k] low decimal digits of [n], most significant first. *)
Fixpoint low_digits (k : nat) (n : N) (acc : string) : string :=
  match k with
  | O => acc
  | S k' => low_digits k' (n / 10)%N (String (digit_char (n mod 10)%N) acc)
  end.

Definition Z_to_string (z : Z) : string :=
  NilZero.string_of_int (Z.to_int z).

Definition pad (k : nat) (z : Z) : string := low_digits k (Z.to_N z) "".

Definition sign_str (s : bool) : string := if s then "-" else "".

(** Nearest integer to [num / den], ties to even ([den] positive). *)
Definition round_half_even (num den : Z) : Z :=
  let q := (num / den)%Z in
  let r := (num mod den)%Z in
  match (2 * r ?= den)%Z with
  | Lt => q
  | Gt => (q + 1)%Z
  | Eq => if Z.even q then q else (q + 1)%Z
  end.

(** Nearest integer to [m * 2^e * 10^k]. *)
Definition scaled (k : nat) (m : positive) (e : Z) : Z :=
  if (0 <=? e)%Z then (Zpos m * 2 ^ e * 10 ^ Z.of_nat k)%Z
  else round_half_even (Zpos m * 10 ^ Z.of_nat k) (2 ^ (- e)).

Definition fixed_digits (k : nat) (n : Z) : string :=
  Z_to_string (n / 10 ^ Z.of_nat k) +:+
  match k with
  | O => ""
  | S _ => "." +:+ pad k (n mod 10 ^ Z.of_nat k)
  end.

(** [format(f, ".kf")], as the f-strings [{x:.3f}] and [{x:.2f}] use it:
    the exact value of [f] rounded to [k] decimals, ties to even. *)
Definition format_f (k : nat) (f : spec_float) : string :=
  match f with
  | S754_nan => "nan"
  | S754_infinity s => sign_str s +:+ "inf"
  | S754_zero s => sign_str s +:+ fixed_digits k 0
  | S754_finite s m e => sign_str s +:+ fixed_digits k (scaled k m e)
  end.

(** A string shows exactly [k] decimals when it ends with a point followed
    by [k] digits. *)
Definition shows_decimals (k : nat) (s : string) : Prop :=
  exists whole frac : string,
    s = whole +:+ "." +:+ frac /\
    String.length frac = k /\
    Forall (fun c => is_digit c = true) (list_ascii_of_string frac).

(** ** Values *)

Record datetime : Type := mkDatetime {
  year : Z; month : Z; day : Z; hour : Z; minute : Z; second : Z
}.

(** The attributes of a [NearEarthObject], over the type of values that its
    untyped attributes hold.  [approaches] holds positions in the
    database's collection of approaches. *)
Record neo_attrs (V : Type) : Type := mkNEO {
  designation : V;
  name : V;
  diameter : spec_float;
  hazardous : V;
  approaches : list nat
}.

Arguments mkNEO {V}.
Arguments designation {V}.
Arguments name {V}.
Arguments diameter {V}.
Arguments hazardous {V}.
Arguments approaches {V}.

Inductive pyval : Type :=
  | PNone
  | PBool (b : bool)
  | PInt (z : Z)
  | PFloat (f : spec_float)
  | PStr (s : string)
  | PList (l : list pyval)
  | PDict (d : list (string * pyval))
  | PDatetime (t : datetime)
  | PNeo (n : neo_attrs pyval).

(** Truth value of an object in a condition. *)
Definition truthy (v : pyval) : bool :=
  match v with
  | PNone => false
  | PBool b => b
  | PInt z => negb (z =? 0)%Z
  | PFloat (S754_zero _) => false
  | PFloat _ => true
  | PStr s => negb (String.eqb s "")
  | PList l => negb (Nat.eqb (length l) 0)
  | PDict d => negb (Nat.eqb (length d) 0)
  | PDatetime _ => true
  | PNeo _ => true
  end.

(** [isinstance(v, float)] *)
Definition is_float (v : pyval) : bool :=
  match v with
  | PFloat _ => true
  | _ => false
  end.

(** [isinstance(v, datetime.datetime)] *)
Definition is_datetime (v : pyval) : bool :=
  match v with
  | PDatetime _ => true
  | _ => false
  end.

(** [d.get(k)] and [d.get(k, default)] on keyword arguments. *)
Definition get (info : gmap string pyval) (k : string) : pyval :=
  default PNone (info !! k).

Definition get_or (info : gmap string pyval) (k : string) (d : pyval) : pyval :=
  default d (info !! k).

(** [d[k]] on a dictionary with string keys. *)
Definition getitem (d : gmap string pyval) (k : string) : res pyval :=
  match d !! k with
  | Some v => Ok v
  | None => Raise (KeyError k)
  end.

(** ** The interpreter's text conversions *)

Class Builtins : Type := {
  (** [float(s)] on text: [None] when Python raises [ValueError] *)
  float_of_str : string -> option spec_float;
  (** [repr(x)] of a float *)
  float_repr : spec_float -> string;
  (** [repr(s)] of a string *)
  str_repr : string -> string
}.

(** ** [helpers.py] *)

Class Helpers : Type := {
  cd_to_datetime : pyval -> res pyval;
  datetime_to_str : pyval -> res string
}.

(** [float(v)] *)
Definition py_float `{Builtins} (v : pyval) : res spec_float :=
  match v with
  | PFloat f => Ok f
  | PInt z => float_of_int z
  | PBool b => float_of_int (if b then 1 else 0)
  | PStr s =>
      match float_of_str s with
      | Some f => Ok f
      | None => Raise ValueError
      end
  | _ => Raise TypeError
  end.

(** [try: body except Exception: raise ValueError(...)] *)
Definition reraise_as_ValueError {A} (body : res A) : res A :=
  match body with
  | Ok a => Ok a
  | Raise _ => Raise ValueError
  end.

Definition datetime_str (t : datetime) : string :=
  pad 4 (year t) +:+ "-" +:+ pad 2 (month t) +:+ "-" +:+ pad 2 (day t) +:+ " " +:+
  pad 2 (hour t) +:+ ":" +:+ pad 2 (minute t) +:+ ":" +:+ pad 2 (second t).

Definition datetime_repr (t : datetime) : string :=
  "datetime.datetime(" +:+ Z_to_string (year t) +:+ ", " +:+ Z_to_string (month t) +:+
  ", " +:+ Z_to_string (day t) +:+ ", " +:+ Z_to_string (hour t) +:+
  ", " +:+ Z_to_string (minute t) +:+
  (if (second t =? 0)%Z then "" else ", " +:+ Z_to_string (second t)) +:+ ")".

(** ** The string forms of [NearEarthObject]

    They format attributes that hold arbitrary values, so they are written
    over the two conversions [str] and [repr] and instantiated below, once
    those are defined on every value. *)
Section NeoText.
Variables (str repr : pyval -> string).

Definition NEO_fullname (self : neo_attrs pyval) : string :=
  if truthy (name self)
  then str (designation self) +:+ " (" +:+ str (name self) +:+ ")"
  else str (designation self).

Definition NEO_str (self : neo_attrs pyval) : string :=
  let hazardous_status := if truthy (hazardous self) then "is" else "is not" in
  if negb (isnan (diameter self))
  then "NEO " +:+ NEO_fullname self +:+ " has a diameter of " +:+
       format_f 3 (diameter self) +:+ " km and " +:+ hazardous_status +:+
       " potentially hazardous."
  else "NEO " +:+ NEO_fullname self +:+ ", " +:+ hazardous_status +:+
       " potentially hazardous.".

Definition NEO_repr (self : neo_attrs pyval) : string :=
  "NearEarthObject(designation=" +:+ repr (designation self) +:+
  ", name=" +:+ repr (name self) +:+
  ", diameter=" +:+ format_f 3 (diameter self) +:+
  ", hazardous=" +:+ str (hazardous self) +:+ ")".
End NeoText.

(** [str(v)] when [as_repr] is false, [repr(v)] when it is true. *)
Fixpoint py_text `{Builtins} (as_repr : bool) (v : pyval) {struct v} : string :=
  match v with
  | PNone => "None"
  | PBool b => if b then "True" else "False"
  | PInt z => Z_to_string z
  | PFloat f => float_repr f
  | PStr s => if as_repr then str_repr s else s
  | PList l => "[" +:+ String.concat ", " (map (py_text true) l) +:+ "]"
  | PDict d =>
      "{" +:+ String.concat ", "
        (map (fun kv => str_repr (fst kv) +:+ ": " +:+ py_text true (snd kv)) d) +:+ "}"
  | PDatetime t => if as_repr then datetime_repr t else datetime_str t
  | PNeo n =>
      if as_repr then NEO_repr (py_text false) (py_text true) n
      else NEO_str (py_text false) n
  end.

Definition py_str `{Builtins} : pyval -> string := py_text false.
Definition py_repr `{Builtins} : pyval -> string := py_text true.

(** ** [class NearEarthObject] *)

Abbreviation NearEarthObject := (neo_attrs pyval).

Section NearEarthObject.
Context `{Builtins}.

Definition NearEarthObject_init (info : gmap string pyval) : res NearEarthObject :=
  let designation := get info "designation" in
  let name := get info "name" in
  diameter ← py_float (get_or info "diameter" (PFloat nan));
  let hazardous := get info "hazardous" in
  mret (mkNEO designation name diameter hazardous []).

(** A call of the class with positional arguments [args] and keyword
    arguments [info]: [__init__] declares [self] and keyword arguments
    only, so a positional argument is a [TypeError]. *)
Definition NearEarthObject_new (args : list pyval) (info : gmap string pyval)
  : res NearEarthObject :=
  match args with
  | [] => NearEarthObject_init info
  | _ :: _ => Raise TypeError
  end.

Definition NearEarthObject_fullname : NearEarthObject -> string := NEO_fullname py_str.
Definition NearEarthObject_str : NearEarthObject -> string := NEO_str py_str.
Definition NearEarthObject_repr : NearEarthObject -> string := NEO_repr py_str py_repr.

Definition NearEarthObject_serialize (self : NearEarthObject) : gmap string pyval :=
  {[ "Designation" := designation self;
     "Name" := name self;
     "Diameter_km" := PFloat (diameter self);
     "Potentially_hazardous" := hazardous self ]}.
End NearEarthObject.

(** ** [class CloseApproach] *)

Record CloseApproach : Type := mkCA {
  _designation : pyval;
  time : pyval;
  distance : spec_float;
  velocity : spec_float;
  neo : pyval
}.

Section CloseApproach.
Context `{Builtins} `{Helpers}.

(** The functions that [models.py] binds by [from helpers import ...]
    and that its methods call by name; a call of a name that the
    module does not bind is a [NameError]. *)
Definition models_globals (ident : string) : option (pyval -> res pyval) :=
  if String.eqb ident "cd_to_datetime" then Some cd_to_datetime
  else if String.eqb ident "datetime_to_str"
       then Some (fun v => s ← datetime_to_str v; mret (PStr s))
       else None.

Definition call_global (ident : string) (arg : pyval) : res pyval :=
  match models_globals ident with
  | Some f => f arg
  | None => Raise (NameError ident)
  end.

(** The check of the time: a truthy value is converted and must come
    out a [datetime]; whatever the conversion raises is raised again as
    a [ValueError]. A falsy value is kept as it is. *)
Definition checked_time (time : pyval) : res pyval :=
  if truthy time
  then reraise_as_ValueError
         (time ← call_global "cd_to_datetime" time;
          if negb (is_datetime time) then Raise ValueError else Ok time)
  else Ok time.

(** [if not isinstance(x, float): raise ValueError(...)] *)
Definition checked_float (x : pyval) : res spec_float :=
  match x with
  | PFloat f => Ok f
  | _ => Raise ValueError
  end.

Definition CloseApproach_init (info : gmap string pyval) : res CloseApproach :=
  let designation := get info "designation" in
  time ← checked_time (get info "time");
  let distance := get_or info "distance" (PFloat nan) in
  let velocity := get_or info "velocity" (PFloat nan) in
  distance ← checked_float distance;
  velocity ← checked_float velocity;
  mret (mkCA designation time distance velocity (get_or info "neo" PNone)).

Definition CloseApproach_new (args : list pyval) (info : gmap string pyval)
  : res CloseApproach :=
  match args with
  | [] => CloseApproach_init info
  | _ :: _ => Raise TypeError
  end.

Definition CloseApproach_designation (self : CloseApproach) : pyval :=
  _designation self.

Definition CloseApproach_time_str (self : CloseApproach) : res pyval :=
  if truthy (time self)
  then call_global "datetime_to_string" (time self)
  else Ok (PStr "Unknown time").

(** [v.fullname] *)
Definition attr_fullname (v : pyval) : res string :=
  match v with
  | PNeo n => Ok (NearEarthObject_fullname n)
  | _ => Raise (AttributeError "fullname")
  end.

(** [v.serialize()] on the [neo] link *)
Definition attr_serialize (v : pyval) : res (gmap string pyval) :=
  match v with
  | PNeo n => Ok (NearEarthObject_serialize n)
  | _ => Raise (AttributeError "serialize")
  end.

Definition CloseApproach_str (self : CloseApproach) : res string :=
  time_str ← CloseApproach_time_str self;
  fullname ← attr_fullname (neo self);
  mret ("At " +:+ py_str time_str +:+ ", '" +:+ fullname +:+
        "' approaches Earth at a distance of " +:+ format_f 2 (distance self) +:+
        " au and a velocity of " +:+ format_f 2 (velocity self) +:+ " km/s.").

Definition CloseApproach_repr (self : CloseApproach) : res string :=
  time_str ← CloseApproach_time_str self;
  mret ("CloseApproach(time=" +:+ py_repr time_str +:+
        ", distance=" +:+ format_f 2 (distance self) +:+
        ", velocity=" +:+ format_f 2 (velocity self) +:+
        ", neo=" +:+ py_repr (neo self) +:+ ")").

Definition CloseApproach_serialize (self : CloseApproach) : res (gmap string pyval) :=
  datetime_utc ← call_global "datetime_to_str" (time self);
  mret ({[ "Datetime_utc" := datetime_utc;
           "Distance_au" := PFloat (distance self);
           "Velocity_km_s" := PFloat (velocity self) ]} : gmap string pyval).
End CloseApproach.

(** ** [extract.py] *)

(** [v == s] for a string literal [s] *)
Definition eq_str (v : pyval) (s : string) : bool :=
  match v with
  | PStr s' => String.eqb s' s
  | _ => false
  end.

(** The values that [for x in v] binds [x] to. *)
Definition py_iter (v : pyval) : res (list pyval) :=
  match v with
  | PList l => Ok l
  | PDict d => Ok (map (fun kv => PStr (fst kv)) d)
  | PStr s => Ok (map (fun c => PStr (String c "")) (list_ascii_of_string s))
  | _ => Raise TypeError
  end.

Fixpoint assoc (k : string) (d : list (string * pyval)) : option pyval :=
  match d with
  | [] => None
  | (k', v) :: d' => if String.eqb k' k then Some v else assoc k d'
  end.

(** [v[k]] for a string literal [k] *)
Definition subscript (v : pyval) (k : string) : res pyval :=
  match v with
  | PDict d =>
      match assoc k d with
      | Some x => Ok x
      | None => Raise (KeyError k)
      end
  | _ => Raise TypeError
  end.

Section Loading.
Context `{Builtins} `{Helpers}.

(** The loop of [load_neos] over the rows that [csv.DictReader] yields,
    each a dictionary from column name to cell. *)
Fixpoint load_neos_from (reader : list (gmap string pyval)) (neos : list NearEarthObject)
  : res (list NearEarthObject) :=
  match reader with
  | [] => Ok neos
  | row :: reader' =>
      designation ← getitem row "pdes";
      name ← getitem row "name";
      cell ← getitem row "diameter";
      diameter ← (if truthy cell
                  then cell ← getitem row "diameter"; py_float cell
                  else Ok nan);
      flag ← getitem row "hazardous";
      let hazardous := eq_str flag "Y" in
      neo ← NearEarthObject_new [designation; name; PFloat diameter; PBool hazardous] ∅;
      load_neos_from reader' (neos ++ [neo])
  end.

Definition load_neos (reader : list (gmap string pyval)) : res (list NearEarthObject) :=
  load_neos_from reader [].

Fixpoint load_approaches_from (items : list pyval) (approaches : list CloseApproach)
  : res (list CloseApproach) :=
  match items with
  | [] => Ok approaches
  | approach_data :: items' =>
      designation ← subscript approach_data "designation";
      time ← subscript approach_data "time";
      distance ← (x ← subscript approach_data "distance"; py_float x);
      velocity ← (x ← subscript approach_data "velocity"; py_float x);
      approach ← CloseApproach_new [designation; time; PFloat distance; PFloat velocity] ∅;
      load_approaches_from items' (approaches ++ [approach])
  end.

(** [data] is what [json.load] returned for the file. *)
Definition load_approaches (data : pyval) : res (list CloseApproach) :=
  items ← py_iter data;
  load_approaches_from items [].
End Loading.

(** ** [write.py] *)

Definition fieldnames : list string :=
  [ "datetime_utc"; "distance_au"; "velocity_km_s";
    "designation"; "name"; "diameter_km"; "potentially_hazardous" ].

Section Writing.
Context `{Builtins} `{Helpers}.

(** [{**result.serialize(), **result.neo.serialize()}]: on a shared key
    the second mapping wins. *)
Definition flatten (result : CloseApproach) : res (gmap string pyval) :=
  approach ← CloseApproach_serialize result;
  neo ← attr_serialize (neo result);
  mret (neo ∪ approach).

Definition csv_format_content (result : CloseApproach) : res (gmap string pyval) :=
  content ← flatten result;
  let content := <["name" := get_or content "name" (PStr "")]> content in
  flag ← getitem content "potentially_hazardous";
  mret (<["potentially_hazardous" := PStr (py_str flag)]> content).

(** The text of a cell: [None] is written as the empty string. *)
Definition csv_cell (v : pyval) : string :=
  match v with
  | PNone => ""
  | _ => py_str v
  end.

(** [DictWriter.writerow]: a key outside [fieldnames] is a [ValueError],
    a missing one is written as the empty string. *)
Definition writerow (content : gmap string pyval) : res (list string) :=
  if decide (dom content ⊆ list_to_set fieldnames)
  then Ok (map (fun k => csv_cell (get_or content k (PStr ""))) fieldnames)
  else Raise ValueError.

Fixpoint write_rows (results : list CloseApproach) (outfile : list (list string))
  : list (list string) * res unit :=
  match results with
  | [] => (outfile, Ok tt)
  | result :: results' =>
      match content ← csv_format_content result; writerow content with
      | Ok row => write_rows results' (outfile ++ [row])
      | Raise e => (outfile, Raise e)
      end
  end.

(** The rows in the file when [write_to_csv] ends, and how it ends. *)
Definition write_to_csv (results : list CloseApproach) : list (list string) * res unit :=
  write_rows results [fieldnames].

Definition json_format_content (result : CloseApproach) : res pyval :=
  content ← flatten result;
  let content := <["name" := get_or content "name" (PStr "")]> content in
  flag ← getitem content "potentially_hazardous";
  let flag := match flag with PNone => false | _ => truthy flag end in
  let content := <["potentially_hazardous" := PBool flag]> content in
  datetime_utc ← getitem content "datetime_utc";
  distance_au ← getitem content "distance_au";
  velocity_km_s ← getitem content "velocity_km_s";
  designation ← getitem content "designation";
  name ← getitem content "name";
  diameter_km ← getitem content "diameter_km";
  potentially_hazardous ← getitem content "potentially_hazardous";
  mret (PDict [ ("datetime_utc", datetime_utc);
                ("distance_au", distance_au);
                ("velocity_km_s", velocity_km_s);
                ("neo", PDict [ ("designation", designation);
                                ("name", name);
                                ("diameter_km", diameter_km);
                                ("potentially_hazardous", potentially_hazardous) ]) ]).

(** The list that [write_to_json] builds and hands to [json.dump]; the
    file is opened only after the list is built. *)
Definition write_to_json (results : list CloseApproach) : res pyval :=
  data ← mapM json_format_content results;
  mret (PList data).
End Writing.

(** ** An instance of [helpers.py] *)

Definition digit_val (c : ascii) : option Z :=
  if is_digit c then Some (Z.of_N (N_of_ascii c) - 48)%Z else None.

Fixpoint digits_val (cs : list ascii) (acc : Z) : option Z :=
  match cs with
  | [] => Some acc
  | c :: cs' => d ← digit_val c; digits_val cs' (10 * acc + d)%Z
  end.

Definition month_abbrs : list string :=
  [ "Jan"; "Feb"; "Mar"; "Apr"; "May"; "Jun";
    "Jul"; "Aug"; "Sep"; "Oct"; "Nov"; "Dec" ].

Fixpoint index_of (s : string) (l : list string) (i : Z) : option Z :=
  match l with
  | [] => None
  | x :: l' => if String.eqb x s then Some i else index_of s l' (i + 1)%Z
  end.

Definition is_leap (y : Z) : bool :=
  ((y mod 4 =? 0) && (negb (y mod 100 =? 0) || (y mod 400 =? 0)))%Z.

Definition days_in_month (y m : Z) : Z :=
  if (m =? 2)%Z then (if is_leap y then 29 else 28)%Z
  else if ((m =? 4) || (m =? 6) || (m =? 9) || (m =? 11))%Z then 30%Z
  else 31%Z.

Definition valid_datetime (t : datetime) : bool :=
  ((1 <=? year t) && (year t <=? 9999) && (1 <=? month t) && (month t <=? 12) &&
   (1 <=? day t) && (day t <=? days_in_month (year t) (month t)) &&
   (0 <=? hour t) && (hour t <=? 23) && (0 <=? minute t) && (minute t <=? 59) &&
   (0 <=? second t) && (second t <=? 59))%Z.

(** Modelled from the spec: [cd_to_datetime] of [helpers.py], which is not
    among the sources. The spec has it accept the data set's compact text,
    year-month-day hour:minute as in ["1900-Dec-27 01:30"], and produce a
    structured date-time; any other text is rejected. *)
Definition parse_cd (s : string) : option datetime :=
  match list_ascii_of_string s with
  | [y1; y2; y3; y4; s1; b1; b2; b3; s2; d1; d2; s3; h1; h2; s4; m1; m2] =>
      if (Ascii.eqb s1 "-" && Ascii.eqb s2 "-" && Ascii.eqb s3 " " && Ascii.eqb s4 ":")%bool
      then
        y ← digits_val [y1; y2; y3; y4] 0;
        mo ← index_of (string_of_list_ascii [b1; b2; b3]) month_abbrs 1;
        d ← digits_val [d1; d2] 0;
        h ← digits_val [h1; h2] 0;
        mi ← digits_val [m1; m2] 0;
        let t := mkDatetime y mo d h mi 0 in
        if valid_datetime t then Some t else None
      else None
  | _ => None
  end.

(** Modelled from the spec: the two functions of [helpers.py]. The time
    format is fixed and drops the seconds; text that does not parse is a
    [ValueError], and a value of another type than the function expects is
    a [TypeError]. *)
#[global] Instance spec_helpers : Helpers := {|
  cd_to_datetime v :=
    match v with
    | PStr s =>
        match parse_cd s with
        | Some t => Ok (PDatetime t)
        | None => Raise ValueError
        end
    | _ => Raise TypeError
    end;
  datetime_to_str v :=
    match v with
    | PDatetime t =>
        Ok (pad 4 (year t) +:+ "-" +:+ pad 2 (month t) +:+ "-" +:+ pad 2 (day t) +:+
            " " +:+ pad 2 (hour t) +:+ ":" +:+ pad 2 (minute t))
    | _ => Raise TypeError
    end
|}.

(** ** An instance of the interpreter's text conversions *)

(** White space, one byte being one code point below 256. *)
Definition is_space (c : ascii) : bool :=
  let n := N_of_ascii c in
  ((n =? 32) || ((9 <=? n) && (n <=? 13)) || ((28 <=? n) && (n <=? 31)) ||
   (n =? 133) || (n =? 160))%N.

Fixpoint lstrip (cs : list ascii) : list ascii :=
  match cs with
  | c :: cs' => if is_space c then lstrip cs' else cs
  | [] => []
  end.

Definition strip (cs : list ascii) : list ascii := rev (lstrip (rev (lstrip cs))).

Definition lower (c : ascii) : ascii :=
  let n := N_of_ascii c in
  if ((65 <=? n) && (n <=? 90))%N then ascii_of_N (n + 32) else c.

(** The longest prefix of digits, and what follows it. *)
Fixpoint span_digits (cs : list ascii) : list ascii * list ascii :=
  match cs with
  | c :: cs' =>
      if is_digit c then let '(ds, rest) := span_digits cs' in (c :: ds, rest)
      else ([], cs)
  | [] => ([], [])
  end.

Definition split_sign (cs : list ascii) : bool * list ascii :=
  match cs with
  | "-"%char :: cs' => (true, cs')
  | "+"%char :: cs' => (false, cs')
  | _ => (false, cs)
  end.

(** The binary64 nearest to [n * 10^x], with sign [s]. *)
Definition float_of_decimal (s : bool) (n x : Z) : spec_float :=
  match n with
  | Zpos p =>
      if (0 <=? x)%Z then binary_normalize 53 1024 (if s then - (n * 10 ^ x) else n * 10 ^ x)%Z 0 false
      else SFdiv 53 1024 (S754_finite s p 0) (S754_finite false (Z.to_pos (10 ^ (- x))) 0)
  | _ => S754_zero s
  end.

(** The exponent part: empty, or [e] with an optional sign and digits. *)
Definition parse_exponent (cs : list ascii) : option Z :=
  match cs with
  | [] => Some 0%Z
  | c :: cs' =>
      if Ascii.eqb (lower c) "e" then
        let '(neg, ds) := split_sign cs' in
        match ds with
        | [] => None
        | _ => x ← digits_val ds 0; Some (if neg then - x else x)%Z
        end
      else None
  end.

(** The text without its digit-group underscores; each one has to stand
    between two digits. *)
Fixpoint drop_underscores (after_digit : bool) (cs : list ascii) : option (list ascii) :=
  match cs with
  | [] => Some []
  | c :: cs' =>
      if Ascii.eqb c "_" then
        match cs' with
        | d :: _ => if after_digit && is_digit d then drop_underscores false cs' else None
        | [] => None
        end
      else rest ← drop_underscores (is_digit c) cs'; Some (c :: rest)
  end.

(** [float(s)] on a decimal literal, [nan], [inf] or [infinity], with an
    optional sign, underscores between digits and surrounding white
    space. *)
Definition parse_float (s : string) : option spec_float :=
  text ← drop_underscores false (strip (list_ascii_of_string s));
  let '(neg, body) := split_sign text in
  let word := string_of_list_ascii (map lower body) in
  if String.eqb word "nan" then Some S754_nan
  else if (String.eqb word "inf" || String.eqb word "infinity")%bool
  then Some (S754_infinity neg)
  else
    let '(whole, rest) := span_digits body in
    let '(frac, rest) :=
      match rest with
      | "."%char :: rest' => span_digits rest'
      | _ => ([], rest)
      end in
    match whole ++ frac with
    | [] => None
    | ds =>
        n ← digits_val ds 0;
        x ← parse_exponent rest;
        Some (float_of_decimal neg n (x - Z.of_nat (length frac)))
    end.

Definition float_same (a b : spec_float) : bool :=
  match a, b with
  | S754_zero s, S754_zero s' => Bool.eqb s s'
  | S754_infinity s, S754_infinity s' => Bool.eqb s s'
  | S754_nan, S754_nan => true
  | S754_finite s m e, S754_finite s' m' e' => Bool.eqb s s' && (m =? m')%positive && (e =? e')%Z
  | _, _ => false
  end.

(** The least [j] from [j0] on with [den <= num * 10^j]. *)
Fixpoint first_scale (fuel : nat) (num den j : Z) : Z :=
  match fuel with
  | O => j
  | S fuel' => if (den <=? num * 10 ^ j)%Z then j else first_scale fuel' num den (j + 1)%Z
  end.

(** The exponent [k] with [10^k <= num / den < 10^(k+1)]. *)
Definition decimal_exponent (num den : Z) : Z :=
  if (den <=? num)%Z
  then (Z.of_nat (String.length (Z_to_string (num / den))) - 1)%Z
  else (- first_scale 400 num den 1)%Z.

(** The shortest decimal [n * 10^x] that reads back as [f], looked for
    among the two decimals of [p], [p + 1], ... digits around [num / den],
    the exact value of [f]; of two that read back, the nearer one, and
    the one with the even last digit when they are as near. *)
Fixpoint shortest (fuel : nat) (f : spec_float) (num den k p : Z) : Z * Z :=
  let x := (k - p + 1)%Z in
  let sn := if (0 <=? x)%Z then num else (num * 10 ^ (- x))%Z in
  let sd := if (0 <=? x)%Z then (den * 10 ^ x)%Z else den in
  let lo := (sn / sd)%Z in
  let r := (sn mod sd)%Z in
  let ok_lo := float_same (float_of_decimal false lo x) f in
  let ok_hi := float_same (float_of_decimal false (lo + 1) x) f in
  match fuel with
  | O => (lo, x)
  | S fuel' =>
      if ok_lo && ok_hi
      then match (2 * r ?= sd)%Z with
           | Lt => (lo, x)
           | Gt => ((lo + 1)%Z, x)
           | Eq => if Z.even lo then (lo, x) else ((lo + 1)%Z, x)
           end
      else if ok_lo then (lo, x)
      else if ok_hi then ((lo + 1)%Z, x)
      else shortest fuel' f num den k (p + 1)%Z
  end.

Fixpoint strip_zeros (rev_digits : list ascii) : list ascii :=
  match rev_digits with
  | "0"%char :: ds => strip_zeros ds
  | _ => rev_digits
  end.

Definition zeros (n : Z) : string := string_of_list_ascii (repeat "0"%char (Z.to_nat n)).

(** [repr] lays the digits out in positional notation when the point falls
    within them or close by, with an exponent otherwise. *)
Definition layout (digits : list ascii) (decpt : Z) : string :=
  let nd := Z.of_nat (length digits) in
  if ((decpt <=? -4) || (16 <? decpt))%Z then
    let e := (decpt - 1)%Z in
    string_of_list_ascii (take 1 digits) +:+
    (if (1 <? nd)%Z then "." +:+ string_of_list_ascii (drop 1 digits) else "") +:+
    "e" +:+ (if (e <? 0)%Z then "-" else "+") +:+
    (if (Z.abs e <? 10)%Z then "0" else "") +:+ Z_to_string (Z.abs e)
  else if (decpt <=? 0)%Z then
    "0." +:+ zeros (- decpt) +:+ string_of_list_ascii digits
  else if (nd <=? decpt)%Z then
    string_of_list_ascii digits +:+ zeros (decpt - nd) +:+ ".0"
  else
    string_of_list_ascii (take (Z.to_nat decpt) digits) +:+ "." +:+
    string_of_list_ascii (drop (Z.to_nat decpt) digits).

(** [repr(f)]: the shortest digits that read back as [f]. *)
Definition shortest_repr (f : spec_float) : string :=
  match f with
  | S754_nan => "nan"
  | S754_infinity s => sign_str s +:+ "inf"
  | S754_zero s => sign_str s +:+ "0.0"
  | S754_finite s m e =>
      let num := if (0 <=? e)%Z then (Zpos m * 2 ^ e)%Z else Zpos m in
      let den := if (0 <=? e)%Z then 1%Z else (2 ^ (- e))%Z in
      let '(n, x) := shortest 17 (S754_finite false m e) num den (decimal_exponent num den) 1 in
      let all := list_ascii_of_string (Z_to_string n) in
      sign_str s +:+ layout (rev (strip_zeros (rev all))) (x + Z.of_nat (length all))
  end.

Definition hex_char (d : N) : ascii :=
  if (d <? 10)%N then ascii_of_N (48 + d) else ascii_of_N (87 + d).

(** A character that [repr] writes as it is, one byte being one code point
    below 256. *)
Definition printable (c : ascii) : bool :=
  let n := N_of_ascii c in
  (((32 <=? n) && (n <? 127)) || ((161 <=? n) && negb (n =? 173)))%N.

Definition backslash : ascii := ascii_of_N 92.
Definition double_quote : ascii := ascii_of_N 34.
Definition single_quote : ascii := ascii_of_N 39.

Definition escaped (c : ascii) : string := String backslash (String c "").

Definition escape_char (quote c : ascii) : string :=
  let n := N_of_ascii c in
  if (Ascii.eqb c quote || Ascii.eqb c backslash)%bool then escaped c
  else if (n =? 9)%N then escaped "t"
  else if (n =? 10)%N then escaped "n"
  else if (n =? 13)%N then escaped "r"
  else if printable c then String c ""
  else escaped "x" +:+ String (hex_char (n / 16)) (String (hex_char (n mod 16)) "").

Definition has_char (c : ascii) (s : string) : bool :=
  existsb (Ascii.eqb c) (list_ascii_of_string s).

(** [repr(s)]: single quotes, unless the text has one and no double quote. *)
Definition quoted (s : string) : string :=
  let quote : ascii :=
    if (has_char single_quote s && negb (has_char double_quote s))%bool
    then double_quote else single_quote in
  String quote
    (String.concat "" (map (escape_char quote) (list_ascii_of_string s)) +:+ String quote "").

#[global] Instance cpython : Builtins := {|
  float_of_str := parse_float;
  float_repr := shortest_repr;
  str_repr := quoted
|}.

(** ** The database *)

Definition key_of (v : pyval) : option string :=
  match v with
  | PStr s => Some s
  | _ => None
  end.

(** The calendar date of a time, as a triple that compares field by field. *)
Definition date_of (v : pyval) : option (Z * Z * Z) :=
  match v with
  | PDatetime t => Some (year t, month t, day t)
  | _ => None
  end.

Definition date_leb (a b : Z * Z * Z) : bool :=
  let '(y, m, d) := a in
  let '(y', m', d') := b in
  ((y <? y') || ((y =? y') && ((m <? m') || ((m =? m') && (d <=? d')))))%Z.

Definition date_eqb (a b : Z * Z * Z) : bool := date_leb a b && date_leb b a.

Definition float_leb (a b : spec_float) : bool := SFleb a b.

Definition neo_of (c : CloseApproach) : option NearEarthObject :=
  match neo c with
  | PNeo n => Some n
  | _ => None
  end.

(** Modelled from the spec: the filter dimensions of [query], which the
    spec lists; each is optional and its absence is no constraint. The
    database module is not among the sources. *)
Record Filters : Type := mkFilters {
  on_date : option (Z * Z * Z);
  start_date : option (Z * Z * Z);
  end_date : option (Z * Z * Z);
  distance_min : option spec_float;
  distance_max : option spec_float;
  velocity_min : option spec_float;
  velocity_max : option spec_float;
  diameter_min : option spec_float;
  diameter_max : option spec_float;
  hazardous_is : option bool
}.

Definition no_filters : Filters :=
  mkFilters None None None None None None None None None None.

(** A filter that is absent holds; one that is present is tested on the
    attribute, and fails when the attribute is missing. *)
Definition holds {A B} (test : A -> B -> bool) (bound : option A) (attribute : option B) : bool :=
  match bound, attribute with
  | None, _ => true
  | Some b, Some x => test b x
  | Some _, None => false
  end.

(** Modelled from the spec: an approach passes [query] when it satisfies
    every filter supplied. Dates compare on the calendar date, bounds are
    inclusive, and a diameter that is not a number satisfies no bound. *)
Definition satisfies (f : Filters) (c : CloseApproach) : bool :=
  holds date_eqb (on_date f) (date_of (time c)) &&
  holds date_leb (start_date f) (date_of (time c)) &&
  holds (fun b x => date_leb x b) (end_date f) (date_of (time c)) &&
  holds float_leb (distance_min f) (Some (distance c)) &&
  holds (fun b x => float_leb x b) (distance_max f) (Some (distance c)) &&
  holds float_leb (velocity_min f) (Some (velocity c)) &&
  holds (fun b x => float_leb x b) (velocity_max f) (Some (velocity c)) &&
  holds float_leb (diameter_min f) (diameter <$> neo_of c) &&
  holds (fun b x => float_leb x b) (diameter_max f) (diameter <$> neo_of c) &&
  holds Bool.eqb (hazardous_is f) ((fun n => truthy (hazardous n)) <$> neo_of c).

Record NEODatabase : Type := mkDB {
  db_neos : list NearEarthObject;
  db_approaches : list CloseApproach;
  by_designation : gmap string NearEarthObject;
  by_name : gmap string NearEarthObject
}.

(** The positions, from [i] on, of the approaches that carry the key. *)
Fixpoint positions (key : string) (cs : list CloseApproach) (i : nat) : list nat :=
  match cs with
  | [] => []
  | c :: cs' =>
      if decide (key_of (_designation c) = Some key)
      then i :: positions key cs' (S i)
      else positions key cs' (S i)
  end.

Definition with_approaches (cs : list CloseApproach) (n : NearEarthObject) : NearEarthObject :=
  mkNEO (designation n) (name n) (diameter n) (hazardous n)
        (match key_of (designation n) with
         | Some key => positions key cs 0
         | None => []
         end).

(** A mapping from the key that [key] extracts to the object; a later
    object replaces an earlier one under the same key. *)
Definition index_by (key : NearEarthObject -> option string) (neos : list NearEarthObject)
  : gmap string NearEarthObject :=
  foldl (fun m n => match key n with Some k => <[k := n]> m | None => m end) ∅ neos.

Definition name_key (n : NearEarthObject) : option string :=
  match name n with
  | PStr "" => None
  | v => key_of v
  end.

(** The minimal object that stands for an unknown designation. *)
Definition placeholder (d : pyval) : NearEarthObject := mkNEO d PNone nan PNone [].

Definition link (index : gmap string NearEarthObject) (cs : list CloseApproach)
  (c : CloseApproach) : CloseApproach :=
  let n := match key_of (_designation c) ≫= (index !!.) with
           | Some n => n
           | None => with_approaches cs (placeholder (_designation c))
           end in
  mkCA (_designation c) (time c) (distance c) (velocity c) (PNeo n).

(** Modelled from the spec: construction of the database, which is not
    among the sources. It indexes the objects by designation and by
    non-empty name, and links every approach to the object of its
    designation, or to a placeholder when there is none, keeping the
    approaches in their order. *)
Definition NEODatabase_init (neos : list NearEarthObject) (approaches : list CloseApproach)
  : NEODatabase :=
  let neos := map (with_approaches approaches) neos in
  let index := index_by (fun n => key_of (designation n)) neos in
  mkDB neos (map (link index approaches) approaches) index (index_by name_key neos).

Definition get_neo_by_designation (db : NEODatabase) (d : string) : option NearEarthObject :=
  by_designation db !! d.

Definition get_neo_by_name (db : NEODatabase) (nm : string) : option NearEarthObject :=
  by_name db !! nm.

(** Modelled from the spec: [query], the approaches that satisfy every
    filter, in the order of the collection. The sequence it produces
    lazily is given here as the list of what it yields. *)
Definition query (db : NEODatabase) (f : Filters) : list CloseApproach :=
  filter (fun c => satisfies f c = true) (db_approaches db).

(** What an approach records of the event, apart from its link. *)
Definition record_of (c : CloseApproach) : pyval * pyval * spec_float * spec_float :=
  (_designation c, time c, distance c, velocity c).

(** ** The records of the spec's example *)

Definition eros_info : gmap string pyval :=
  {[ "designation" := PStr "433";
     "name" := PStr "Eros";
     "diameter" := PFloat (float_of_ratio 1684 100);
     "hazardous" := PBool false ]}.

Definition eros : NearEarthObject :=
  mkNEO (PStr "433") (PStr "Eros") (float_of_ratio 1684 100) (PBool false) [].

Definition eros_approach_info : gmap string pyval :=
  {[ "designation" := PStr "433";
     "time" := PStr "1900-Dec-27 01:30";
     "distance" := PFloat (float_of_ratio 15 100);
     "velocity" := PFloat (float_of_ratio 665 100) ]}.

Definition eros_time : pyval := PDatetime (mkDatetime 1900 12 27 1 30 0).

(** The approach of the example, as constructed and as linked to its object. *)
Definition eros_approach : CloseApproach :=
  mkCA (PStr "433") eros_time (float_of_ratio 15 100) (float_of_ratio 665 100) PNone.

Definition eros_approach_linked : CloseApproach :=
  mkCA (PStr "433") eros_time (float_of_ratio 15 100) (float_of_ratio 665 100) (PNeo eros).

(** The same approach without a time. *)
Definition eros_approach_untimed : CloseApproach :=
  mkCA (PStr "433") PNone (float_of_ratio 15 100) (float_of_ratio 665 100) (PNeo eros).

(** A row of the objects' file under the columns of the data set, where
    the hazard flag is the column [pha], and the same row under the
    columns that [load_neos] reads. *)
Definition eros_row_pha : gmap string pyval :=
  {[ "pdes" := PStr "433"; "name" := PStr "Eros";
     "diameter" := PStr "16.84"; "pha" := PStr "N" ]}.

Definition eros_row : gmap string pyval :=
  {[ "pdes" := PStr "433"; "name" := PStr "Eros";
     "diameter" := PStr "16.84"; "hazardous" := PStr "N" ]}.

(** An entry of the approaches' file under the keys that
    [load_approaches] reads, and one under the short keys of the data set. *)
Definition eros_entry : pyval :=
  PDict [ ("designation", PStr "433"); ("time", PStr "1900-Dec-27 01:30");
          ("distance", PStr "0.15"); ("velocity", PStr "6.65") ].

Definition eros_entry_short : pyval :=
  PDict [ ("des", PStr "433"); ("cd", PStr "1900-Dec-27 01:30");
          ("dist", PStr "0.15"); ("v_rel", PStr "6.65") ].

(** * Properties *)

(** ** Lookups in keyword arguments *)

Lemma get_delete (k k' : string) (info : gmap string pyval) :
  get (delete k info) k' = if decide (k = k') then PNone else get info k'.
Proof.
  unfold get. rewrite lookup_delete. by case_decide.
Qed.

Lemma get_or_delete (k k' : string) (d : pyval) (info : gmap string pyval) :
  get_or (delete k info) k' d = if decide (k = k') then d else get_or info k' d.
Proof.
  unfold get_or. rewrite lookup_delete. by case_decide.
Qed.

Lemma get_or_missing (k : string) (d : pyval) (info : gmap string pyval) :
  info !! k = None -> get_or info k d = d.
Proof. unfold get_or. by intros ->. Qed.

Lemma get_or_present (k : string) (d v : pyval) (info : gmap string pyval) :
  info !! k = Some v -> get_or info k d = v.
Proof. unfold get_or. by intros ->. Qed.

Lemma get_missing (k : string) (info : gmap string pyval) :
  info !! k = None -> get info k = PNone.
Proof. unfold get. by intros ->. Qed.

Lemma get_present (k : string) (v : pyval) (info : gmap string pyval) :
  info !! k = Some v -> get info k = v.
Proof. unfold get. by intros ->. Qed.

(** ** Construction *)

Section Construction.
Context `{Builtins} `{Helpers}.

Lemma CloseApproach_init_unfold (info : gmap string pyval) :
  CloseApproach_init info =
    (t ← checked_time (get info "time");
     d ← checked_float (get_or info "distance" (PFloat nan));
     v ← checked_float (get_or info "velocity" (PFloat nan));
     mret (mkCA (get info "designation") t d v (get_or info "neo" PNone))).
Proof. reflexivity. Qed.

Lemma CloseApproach_init_Ok (info : gmap string pyval) (c : CloseApproach) :
  CloseApproach_init info = Ok c <->
    checked_time (get info "time") = Ok (time c) /\
    get_or info "distance" (PFloat nan) = PFloat (distance c) /\
    get_or info "velocity" (PFloat nan) = PFloat (velocity c) /\
    _designation c = get info "designation" /\
    neo c = get_or info "neo" PNone.
Proof.
  rewrite CloseApproach_init_unfold. split.
  - destruct (checked_time _) as [t|] eqn:Et; [|done]. cbn.
    destruct (get_or info "distance" _) eqn:Ed; try done.
    destruct (get_or info "velocity" _) eqn:Ev; try done.
    cbn. intros [= <-]. done.
  - intros (-> & -> & -> & Hd & Hn). cbn. destruct c; cbn in *. by subst.
Qed.

Lemma checked_time_falsy (v : pyval) : truthy v = false -> checked_time v = Ok v.
Proof. unfold checked_time. by intros ->. Qed.

Lemma checked_time_error (v : pyval) (e : exn) : checked_time v = Raise e -> e = ValueError.
Proof.
  unfold checked_time. destruct (truthy v); [|done].
  destruct (_ ≫= _); cbn; congruence.
Qed.

Lemma checked_float_error (v : pyval) (e : exn) : checked_float v = Raise e -> e = ValueError.
Proof. destruct v; cbn; congruence. Qed.

Lemma NearEarthObject_init_Ok (info : gmap string pyval) (n : NearEarthObject) :
  NearEarthObject_init info = Ok n <->
    py_float (get_or info "diameter" (PFloat nan)) = Ok (diameter n) /\
    designation n = get info "designation" /\
    name n = get info "name" /\
    hazardous n = get info "hazardous" /\
    approaches n = [].
Proof.
  unfold NearEarthObject_init. split.
  - destruct (py_float _) as [d|]; [|done]. cbn. intros [= <-]. done.
  - intros (-> & ? & ? & ? & ?). cbn. destruct n; cbn in *. by subst.
Qed.

(** C1, as the code has it: a required field that is missing is not an
    error. Whenever a mapping constructs an object, the mapping without
    the designation constructs the same object with [None] for it, and
    for a close approach the same holds of the time, with [None], and of
    the distance and the velocity, with not-a-number. A mapping without
    any of the required fields constructs an object of these defaults. *)
Theorem missing_required_field_defaults (info : gmap string pyval) :
  (forall n, NearEarthObject_init info = Ok n ->
     NearEarthObject_init (delete "designation" info) =
       Ok (mkNEO PNone (name n) (diameter n) (hazardous n) (approaches n))) /\
  (forall c, CloseApproach_init info = Ok c ->
     CloseApproach_init (delete "designation" info) =
       Ok (mkCA PNone (time c) (distance c) (velocity c) (neo c)) /\
     CloseApproach_init (delete "time" info) =
       Ok (mkCA (_designation c) PNone (distance c) (velocity c) (neo c)) /\
     CloseApproach_init (delete "distance" info) =
       Ok (mkCA (_designation c) (time c) nan (velocity c) (neo c)) /\
     CloseApproach_init (delete "velocity" info) =
       Ok (mkCA (_designation c) (time c) (distance c) nan (neo c))) /\
  (info !! "designation" = None -> info !! "diameter" = None ->
     NearEarthObject_init info =
       Ok (mkNEO PNone (get info "name") nan (get info "hazardous") [])) /\
  (info !! "designation" = None -> info !! "time" = None ->
   info !! "distance" = None -> info !! "velocity" = None ->
     CloseApproach_init info = Ok (mkCA PNone PNone nan nan (get_or info "neo" PNone))).
Proof.
  split; [|split; [|split]].
  - intros n (Hd & Hdes & Hname & Hhaz & Happ)%NearEarthObject_init_Ok.
    apply NearEarthObject_init_Ok. cbn.
    rewrite !get_delete, get_or_delete. repeat case_decide; try done.
  - intros c (Ht & Hd & Hv & Hdes & Hneo)%CloseApproach_init_Ok.
    repeat split; apply CloseApproach_init_Ok; cbn;
      rewrite ?get_delete, ?get_or_delete; repeat case_decide; try done.
  - intros Hdes Hdia. apply NearEarthObject_init_Ok. cbn.
    by rewrite (get_or_missing _ _ _ Hdia), (get_missing _ _ Hdes).
  - intros Hdes Ht Hd Hv. apply CloseApproach_init_Ok. cbn.
    by rewrite (get_or_missing _ _ _ Hd), (get_or_missing _ _ _ Hv),
         (get_missing _ _ Hdes), (get_missing _ _ Ht).
Qed.
End Construction.

Section Coercion.
Context `{Builtins} `{Helpers}.

Lemma CloseApproach_init_error (info : gmap string pyval) (e : exn) :
  CloseApproach_init info = Raise e -> e = ValueError.
Proof.
  rewrite CloseApproach_init_unfold.
  destruct (checked_time _) as [t|e1] eqn:Et; cbn.
  - destruct (checked_float (get_or info "distance" _)) as [d|e2] eqn:Ed; cbn.
    + destruct (checked_float (get_or info "velocity" _)) as [v|e3] eqn:Ev; cbn; [done|].
      intros [= <-]. by eapply checked_float_error.
    + intros [= <-]. by eapply checked_float_error.
  - intros [= <-]. by eapply checked_time_error.
Qed.

Lemma checked_float_not_float (v : pyval) :
  is_float v = false -> checked_float v = Raise ValueError.
Proof. by destruct v. Qed.

(** C2, as the code has it: the diameter goes through [float()], so a
    missing diameter is not-a-number and a missing name is [None]
    without error, while text that [float()] rejects raises
    [ValueError]; the distance and the velocity are not coerced, and a
    supplied one that is not a float already raises [ValueError]. *)
Theorem diameter_coerced_distance_velocity_checked (info : gmap string pyval) :
  (info !! "diameter" = None ->
     NearEarthObject_init info =
       Ok (mkNEO (get info "designation") (get info "name") nan (get info "hazardous") [])) /\
  (info !! "diameter" = None -> info !! "name" = None ->
     NearEarthObject_init info =
       Ok (mkNEO (get info "designation") PNone nan (get info "hazardous") [])) /\
  (forall v f, info !! "diameter" = Some v -> py_float v = Ok f ->
     NearEarthObject_init info =
       Ok (mkNEO (get info "designation") (get info "name") f (get info "hazardous") [])) /\
  (forall s, info !! "diameter" = Some (PStr s) -> float_of_str s = None ->
     NearEarthObject_init info = Raise ValueError) /\
  (forall v, info !! "distance" = Some v -> is_float v = false ->
     CloseApproach_init info = Raise ValueError) /\
  (forall v, info !! "velocity" = Some v -> is_float v = false ->
     CloseApproach_init info = Raise ValueError).
Proof.
  repeat split.
  - intros Hd. unfold NearEarthObject_init. by rewrite (get_or_missing _ _ _ Hd).
  - intros Hd Hn. unfold NearEarthObject_init.
    by rewrite (get_or_missing _ _ _ Hd), (get_missing _ _ Hn).
  - intros v f Hd Hf. unfold NearEarthObject_init.
    by rewrite (get_or_present _ _ _ _ Hd), Hf.
  - intros s Hd Hs. unfold NearEarthObject_init.
    rewrite (get_or_present _ _ _ _ Hd). cbn. by rewrite Hs.
  - intros v Hd Hv. destruct (CloseApproach_init info) as [c|e] eqn:E.
    + apply CloseApproach_init_Ok in E as (_ & Hc & _).
      rewrite (get_or_present _ _ _ _ Hd) in Hc. by subst v.
    + f_equal. by eapply CloseApproach_init_error.
  - intros v Hd Hv. destruct (CloseApproach_init info) as [c|e] eqn:E.
    + apply CloseApproach_init_Ok in E as (_ & _ & Hc & _).
      rewrite (get_or_present _ _ _ _ Hd) in Hc. by subst v.
    + f_equal. by eapply CloseApproach_init_error.
Qed.

(** The time of a constructed approach is a date-time, or the falsy
    value that the mapping held. *)
Lemma constructed_time (info : gmap string pyval) (c : CloseApproach) :
  CloseApproach_init info = Ok c ->
  is_datetime (time c) = true \/
  (truthy (time c) = false /\ time c = get info "time").
Proof.
  intros (Ht & _)%CloseApproach_init_Ok. unfold checked_time in Ht.
  destruct (truthy (get info "time")) eqn:Etr.
  - left. destruct (call_global _ _) as [t|]; [|done]. cbn in Ht.
    destruct (is_datetime t) eqn:Edt; cbn in Ht; [|done]. by injection Ht as <-.
  - right. injection Ht as <-. done.
Qed.

(** C3, as the code has it: a time that is truthy and that the
    conversion rejects, or turns into something else than a date-time,
    makes construction raise [ValueError]; a time that is missing,
    [None] or empty is not converted, and the approach is constructed
    with it. A constructed approach holds a date-time or that falsy
    value. *)
Theorem unparseable_time_raises_unless_falsy (info : gmap string pyval) :
  (forall e, truthy (get info "time") = true ->
     cd_to_datetime (get info "time") = Raise e ->
     CloseApproach_init info = Raise ValueError) /\
  (forall t, truthy (get info "time") = true ->
     cd_to_datetime (get info "time") = Ok t -> is_datetime t = false ->
     CloseApproach_init info = Raise ValueError) /\
  (forall d v, truthy (get info "time") = false ->
     get_or info "distance" (PFloat nan) = PFloat d ->
     get_or info "velocity" (PFloat nan) = PFloat v ->
     CloseApproach_init info =
       Ok (mkCA (get info "designation") (get info "time") d v (get_or info "neo" PNone))) /\
  (forall c, CloseApproach_init info = Ok c ->
     is_datetime (time c) = true \/
     (truthy (time c) = false /\ time c = get info "time")).
Proof.
  repeat split.
  - intros e Ht He. rewrite CloseApproach_init_unfold. unfold checked_time.
    rewrite Ht. change (call_global "cd_to_datetime" (get info "time"))
      with (cd_to_datetime (get info "time")). by rewrite He.
  - intros t Ht He Hd. rewrite CloseApproach_init_unfold. unfold checked_time.
    rewrite Ht. change (call_global "cd_to_datetime" (get info "time"))
      with (cd_to_datetime (get info "time")). rewrite He. cbn. by rewrite Hd.
  - intros d v Ht Hd Hv. apply CloseApproach_init_Ok. cbn.
    by rewrite (checked_time_falsy _ Ht).
  - apply constructed_time.
Qed.
End Coercion.

(** C1, as stated, fails on the empty mapping: both constructors return an
    object. *)
Lemma empty_mapping_constructs :
  NearEarthObject_init ∅ = Ok (mkNEO PNone PNone nan PNone []) /\
  CloseApproach_init ∅ = Ok (mkCA PNone PNone nan nan PNone).
Proof. split; reflexivity. Qed.

Lemma missing_required_field_defaults_witness :
  NearEarthObject_init (delete "designation" eros_info) =
    Ok (mkNEO PNone (PStr "Eros") (float_of_ratio 1684 100) (PBool false) []) /\
  CloseApproach_init (delete "time" eros_approach_info) =
    Ok (mkCA (PStr "433") PNone (float_of_ratio 15 100) (float_of_ratio 665 100) PNone).
Proof.
  split.
  - apply (proj1 (missing_required_field_defaults eros_info) eros). reflexivity.
  - apply (proj1 (proj2 (missing_required_field_defaults eros_approach_info)) eros_approach).
    reflexivity.
Defined.

(** C2, as stated, fails on the example's records once the distance is
    given as text, or the diameter as text that is no number:
    construction raises. *)
Lemma text_distance_or_text_diameter_raises :
  CloseApproach_init (<["distance" := PStr "0.15"]> eros_approach_info) = Raise ValueError /\
  NearEarthObject_init (<["diameter" := PStr "unknown"]> eros_info) = Raise ValueError.
Proof. split; reflexivity. Qed.

Lemma diameter_coerced_distance_velocity_checked_witness :
  NearEarthObject_init (delete "diameter" eros_info) =
    Ok (mkNEO (PStr "433") (PStr "Eros") nan (PBool false) []) /\
  CloseApproach_init (<["distance" := PInt 1]> eros_approach_info) = Raise ValueError.
Proof.
  split.
  - exact (proj1 (diameter_coerced_distance_velocity_checked (delete "diameter" eros_info))
             eq_refl).
  - apply (proj1 (proj2 (proj2 (proj2 (proj2
      (diameter_coerced_distance_velocity_checked
         (<["distance" := PInt 1]> eros_approach_info)))))) (PInt 1)); reflexivity.
Defined.

(** C3, as stated, fails on the example's approach once its time is the
    empty text, which does not parse, or is left out: an approach is
    constructed, without a date-time. *)
Lemma empty_time_constructs :
  cd_to_datetime (PStr "") = Raise ValueError /\
  CloseApproach_init (<["time" := PStr ""]> eros_approach_info) =
    Ok (mkCA (PStr "433") (PStr "") (float_of_ratio 15 100) (float_of_ratio 665 100) PNone) /\
  CloseApproach_init (delete "time" eros_approach_info) =
    Ok (mkCA (PStr "433") PNone (float_of_ratio 15 100) (float_of_ratio 665 100) PNone).
Proof. repeat split; reflexivity. Qed.

Lemma unparseable_time_raises_unless_falsy_witness :
  CloseApproach_init (<["time" := PStr "27/12/1900"]> eros_approach_info) = Raise ValueError.
Proof.
  apply (proj1 (unparseable_time_raises_unless_falsy
                  (<["time" := PStr "27/12/1900"]> eros_approach_info)) ValueError);
    reflexivity.
Defined.

(** ** Text *)

Lemma append_assoc (a b c : string) : (a +:+ b) +:+ c = a +:+ b +:+ c.
Proof.
  induction a as [|x a IH]; [done|].
  change (String x ((a +:+ b) +:+ c) = String x (a +:+ b +:+ c)). by rewrite IH.
Qed.

Lemma digit_char_is_digit (d : N) : (d < 10)%N -> is_digit (digit_char d) = true.
Proof.
  intros Hd. unfold is_digit, digit_char.
  rewrite N_ascii_embedding by lia.
  apply andb_true_iff. split; apply N.leb_le; lia.
Qed.

Lemma low_digits_length (k : nat) (n : N) (acc : string) :
  String.length (low_digits k n acc) = k + String.length acc.
Proof.
  revert n acc. induction k as [|k IH]; intros n acc; cbn; [done|].
  rewrite IH. cbn. lia.
Qed.

Lemma low_digits_digits (k : nat) (n : N) (acc : string) :
  Forall (fun c => is_digit c = true) (list_ascii_of_string acc) ->
  Forall (fun c => is_digit c = true) (list_ascii_of_string (low_digits k n acc)).
Proof.
  revert n acc. induction k as [|k IH]; intros n acc Hacc; cbn; [done|].
  apply IH. cbn. constructor; [|done].
  apply digit_char_is_digit. apply N.mod_lt. done.
Qed.

Lemma pad_shows (k : nat) (z : Z) :
  String.length (pad k z) = k /\
  Forall (fun c => is_digit c = true) (list_ascii_of_string (pad k z)).
Proof.
  unfold pad. split.
  - rewrite low_digits_length. cbn. lia.
  - apply low_digits_digits. constructor.
Qed.

Lemma fixed_digits_shows (k : nat) (sign : string) (n : Z) :
  shows_decimals (S k) (sign +:+ fixed_digits (S k) n).
Proof.
  unfold fixed_digits.
  exists (sign +:+ Z_to_string (n / 10 ^ Z.of_nat (S k))), (pad (S k) (n mod 10 ^ Z.of_nat (S k))).
  split; [by rewrite append_assoc | apply pad_shows].
Qed.

Lemma format_f_shows (k : nat) (f : spec_float) :
  isfinite f = true -> shows_decimals (S k) (format_f (S k) f).
Proof.
  destruct f as [s|s| |s m e]; try done; intros _; apply fixed_digits_shows.
Qed.

Lemma point_in_append (whole frac : string) :
  In "."%char (list_ascii_of_string (whole +:+ "." +:+ frac)).
Proof.
  induction whole as [|x whole IH].
  - change (In "."%char ("."%char :: list_ascii_of_string frac)). by left.
  - change (In "."%char (x :: list_ascii_of_string (whole +:+ "." +:+ frac))).
    by right.
Qed.

(** The text of a number that is not finite has no point in it. *)
Lemma format_f_shows_iff (k : nat) (f : spec_float) :
  shows_decimals (S k) (format_f (S k) f) <-> isfinite f = true.
Proof.
  split; [|apply format_f_shows].
  intros (whole & frac & Heq & _).
  destruct f as [s|s| |s m e]; try done; exfalso;
    pose proof (point_in_append whole frac) as Hin; rewrite <- Heq in Hin.
  - destruct s; vm_compute in Hin; intuition discriminate.
  - vm_compute in Hin; intuition discriminate.
Qed.

Section Text.
Context `{Builtins} `{Helpers}.

(** C6: the full name is the designation followed by the name in
    parentheses when the name is present, and the designation alone
    when the name is [None] or empty; the object of the example, 433
    named Eros, has the full name ["433 (Eros)"]. *)
Theorem fullname_is_designation_and_name :
  (forall n : NearEarthObject, truthy (name n) = true ->
     NearEarthObject_fullname n =
       py_str (designation n) +:+ " (" +:+ py_str (name n) +:+ ")") /\
  (forall n : NearEarthObject, truthy (name n) = false ->
     NearEarthObject_fullname n = py_str (designation n)) /\
  (forall (d nm : string) dia hz aps, nm <> "" ->
     NearEarthObject_fullname (mkNEO (PStr d) (PStr nm) dia hz aps) =
       d +:+ " (" +:+ nm +:+ ")") /\
  (forall (d : string) dia hz aps,
     NearEarthObject_fullname (mkNEO (PStr d) PNone dia hz aps) = d /\
     NearEarthObject_fullname (mkNEO (PStr d) (PStr "") dia hz aps) = d) /\
  NearEarthObject_init eros_info = Ok eros /\
  NearEarthObject_fullname eros = "433 (Eros)".
Proof.
  unfold NearEarthObject_fullname, NEO_fullname. repeat split.
  - by intros n ->.
  - by intros n ->.
  - intros d nm dia hz aps Hnm. cbn.
    by destruct (String.eqb_spec nm "").
Qed.

(** C5, as the code has it: the string forms of an object render its
    diameter with the format of three decimals, [repr] always and [str]
    when the diameter is a number, leaving it out when it is not; those
    of an approach without a time render its distance and its velocity
    with the format of two decimals. A number so rendered shows exactly
    that many decimals when it is finite, and only then: not-a-number
    and the infinities are rendered as [nan], [inf] and [-inf]. *)
Theorem diameter_three_decimals_approach_two :
  (forall n : NearEarthObject, isnan (diameter n) = false ->
     NearEarthObject_str n =
       "NEO " +:+ NearEarthObject_fullname n +:+ " has a diameter of " +:+
       format_f 3 (diameter n) +:+ " km and " +:+
       (if truthy (hazardous n) then "is" else "is not") +:+ " potentially hazardous.") /\
  (forall n : NearEarthObject,
     NearEarthObject_repr n =
       "NearEarthObject(designation=" +:+ py_repr (designation n) +:+
       ", name=" +:+ py_repr (name n) +:+
       ", diameter=" +:+ format_f 3 (diameter n) +:+
       ", hazardous=" +:+ py_str (hazardous n) +:+ ")") /\
  (forall (c : CloseApproach) (n : NearEarthObject),
     truthy (time c) = false -> neo c = PNeo n ->
     CloseApproach_str c =
       Ok ("At Unknown time, '" +:+ NearEarthObject_fullname n +:+
           "' approaches Earth at a distance of " +:+ format_f 2 (distance c) +:+
           " au and a velocity of " +:+ format_f 2 (velocity c) +:+ " km/s.")) /\
  (forall c : CloseApproach, truthy (time c) = false ->
     CloseApproach_repr c =
       Ok ("CloseApproach(time=" +:+ str_repr "Unknown time" +:+
           ", distance=" +:+ format_f 2 (distance c) +:+
           ", velocity=" +:+ format_f 2 (velocity c) +:+
           ", neo=" +:+ py_repr (neo c) +:+ ")")) /\
  (forall f : spec_float,
     (shows_decimals 3 (format_f 3 f) <-> isfinite f = true) /\
     (shows_decimals 2 (format_f 2 f) <-> isfinite f = true)) /\
  (forall n : NearEarthObject, isnan (diameter n) = true ->
     NearEarthObject_str n =
       "NEO " +:+ NearEarthObject_fullname n +:+ ", " +:+
       (if truthy (hazardous n) then "is" else "is not") +:+ " potentially hazardous.") /\
  (forall k : nat,
     format_f k S754_nan = "nan" /\
     format_f k (S754_infinity false) = "inf" /\
     format_f k (S754_infinity true) = "-inf").
Proof.
  split; [|split; [|split; [|split; [|split; [|split]]]]].
  - intros n Hn. unfold NearEarthObject_str, NEO_str. by rewrite Hn.
  - done.
  - intros c n Ht Hn. unfold CloseApproach_str, CloseApproach_time_str.
    by rewrite Ht, Hn.
  - intros c Ht. unfold CloseApproach_repr, CloseApproach_time_str. by rewrite Ht.
  - intros f. split; apply format_f_shows_iff.
  - intros n Hn. unfold NearEarthObject_str, NEO_str. by rewrite Hn.
  - done.
Qed.

(** C10: on an approach whose time is set, [time_str] raises
    [NameError] for the unbound name [datetime_to_string], and so do
    [str] and [repr], which read it first; on an approach without a
    time it is ["Unknown time"]. An approach constructed from a
    mapping with a time has its time set. *)
Theorem time_str_raises_NameError_when_set :
  (forall c : CloseApproach, truthy (time c) = true ->
     CloseApproach_time_str c = Raise (NameError "datetime_to_string") /\
     CloseApproach_str c = Raise (NameError "datetime_to_string") /\
     CloseApproach_repr c = Raise (NameError "datetime_to_string")) /\
  (forall c : CloseApproach, truthy (time c) = false ->
     CloseApproach_time_str c = Ok (PStr "Unknown time")) /\
  (forall info c, CloseApproach_init info = Ok c ->
     truthy (get info "time") = true ->
     CloseApproach_time_str c = Raise (NameError "datetime_to_string")).
Proof.
  assert (Hset : forall c : CloseApproach, truthy (time c) = true ->
            CloseApproach_time_str c = Raise (NameError "datetime_to_string")).
  { intros c Ht. unfold CloseApproach_time_str. by rewrite Ht. }
  repeat split.
  - by apply Hset.
  - unfold CloseApproach_str. by rewrite Hset.
  - unfold CloseApproach_repr. by rewrite Hset.
  - intros c Ht. unfold CloseApproach_time_str. by rewrite Ht.
  - intros info c Hc Ht. apply Hset.
    destruct (constructed_time info c Hc) as [Hd | [Hf Heq]].
    + by destruct (time c).
    + congruence.
Qed.

(** C7: [serialize] of an object is the mapping of its four attributes
    under their field names and nothing else, so it has no entry for
    the collection of approaches; [serialize] of an approach, when the
    time converts to text, is the mapping of that text, the distance
    and the velocity and nothing else, so it has no entry for the
    link to the object. *)
Theorem serialize_is_flat_without_links :
  (forall (n : NearEarthObject) k v,
     NearEarthObject_serialize n !! k = Some v <->
       (k = "Designation" /\ v = designation n) \/
       (k = "Name" /\ v = name n) \/
       (k = "Diameter_km" /\ v = PFloat (diameter n)) \/
       (k = "Potentially_hazardous" /\ v = hazardous n)) /\
  (forall n : NearEarthObject, NearEarthObject_serialize n !! "approaches" = None) /\
  (forall (c : CloseApproach) s, datetime_to_str (time c) = Ok s ->
     exists m, CloseApproach_serialize c = Ok m /\
       m !! "neo" = None /\
       forall k v, m !! k = Some v <->
         (k = "Datetime_utc" /\ v = PStr s) \/
         (k = "Distance_au" /\ v = PFloat (distance c)) \/
         (k = "Velocity_km_s" /\ v = PFloat (velocity c))) /\
  (forall (c : CloseApproach) m, CloseApproach_serialize c = Ok m ->
     dom m = {[ "Datetime_utc"; "Distance_au"; "Velocity_km_s" ]}).
Proof.
  repeat split.
  - unfold NearEarthObject_serialize. intros Hk.
    destruct (decide (k = "Designation")) as [->|]; [simplify_map_eq; tauto|].
    destruct (decide (k = "Name")) as [->|]; [simplify_map_eq; tauto|].
    destruct (decide (k = "Diameter_km")) as [->|]; [simplify_map_eq; tauto|].
    destruct (decide (k = "Potentially_hazardous")) as [->|]; [simplify_map_eq; tauto|].
    by simplify_map_eq.
  - unfold NearEarthObject_serialize.
    intros [[-> ->]|[[-> ->]|[[-> ->]|[-> ->]]]]; by simplify_map_eq.
  - intros c s Hs. unfold CloseApproach_serialize.
    change (call_global "datetime_to_str" (time c))
      with (s' ← datetime_to_str (time c); mret (PStr s')).
    rewrite Hs. cbn. eexists. split; [done|]. split; [done|].
    intros k v. split.
    + intros Hk.
      destruct (decide (k = "Datetime_utc")) as [->|]; [simplify_map_eq; tauto|].
      destruct (decide (k = "Distance_au")) as [->|]; [simplify_map_eq; tauto|].
      destruct (decide (k = "Velocity_km_s")) as [->|]; [simplify_map_eq; tauto|].
      by simplify_map_eq.
    + intros [[-> ->]|[[-> ->]|[-> ->]]]; by simplify_map_eq.
  - intros c m. unfold CloseApproach_serialize.
    destruct (call_global _ _) as [d|]; [|done]. cbn. intros [= <-].
    rewrite !dom_insert_L, dom_singleton_L. set_solver.
Qed.
End Text.

Lemma length_append (a b : string) :
  String.length (a +:+ b) = String.length a + String.length b.
Proof.
  induction a as [|x a IH]; [done|].
  change (S (String.length (a +:+ b)) = S (String.length a + String.length b)).
  by rewrite IH.
Qed.

(** C5, as stated, fails on the approach of the example, taken without a
    time and linked to its object: its text gives the distance and the
    velocity with two decimals, [0.15] and [6.65], where three decimals
    are [0.150] and [6.650]. *)
Lemma approach_text_has_two_decimals :
  CloseApproach_str eros_approach_untimed =
    Ok "At Unknown time, '433 (Eros)' approaches Earth at a distance of 0.15 au and a velocity of 6.65 km/s." /\
  format_f 3 (distance eros_approach_untimed) = "0.150" /\
  format_f 3 (velocity eros_approach_untimed) = "6.650" /\
  ~ shows_decimals 3 (format_f 2 (distance eros_approach_untimed)).
Proof.
  repeat split; try reflexivity.
  intros (whole & frac & Heq & Hlen & _).
  change (format_f 2 (distance eros_approach_untimed)) with "0.15" in Heq.
  assert (Hl : String.length "0.15" = String.length (whole +:+ "." +:+ frac)) by by rewrite Heq.
  rewrite !length_append, Hlen in Hl. cbn in Hl.
  destruct whole; [discriminate Heq | cbn in Hl; lia].
Qed.

Lemma diameter_three_decimals_approach_two_witness :
  NearEarthObject_str eros =
    "NEO 433 (Eros) has a diameter of 16.840 km and is not potentially hazardous." /\
  CloseApproach_str eros_approach_untimed =
    Ok "At Unknown time, '433 (Eros)' approaches Earth at a distance of 0.15 au and a velocity of 6.65 km/s." /\
  shows_decimals 3 (format_f 3 (diameter eros)).
Proof.
  split; [|split].
  - exact (proj1 diameter_three_decimals_approach_two eros eq_refl).
  - exact (proj1 (proj2 (proj2 diameter_three_decimals_approach_two))
             eros_approach_untimed eros eq_refl eq_refl).
  - exact (proj2 (proj1 (proj1 (proj2 (proj2 (proj2 (proj2
             diameter_three_decimals_approach_two)))) (diameter eros))) eq_refl).
Defined.

Lemma fullname_is_designation_and_name_witness :
  NearEarthObject_fullname eros = "433 (Eros)" /\
  NearEarthObject_fullname (mkNEO (PStr "2020 FK") (PStr "") nan (PBool false) []) = "2020 FK".
Proof.
  split.
  - exact (proj1 fullname_is_designation_and_name eros eq_refl).
  - exact (proj1 (proj2 fullname_is_designation_and_name)
             (mkNEO (PStr "2020 FK") (PStr "") nan (PBool false) []) eq_refl).
Defined.

Lemma time_str_raises_NameError_when_set_witness :
  CloseApproach_time_str eros_approach_linked = Raise (NameError "datetime_to_string") /\
  CloseApproach_str eros_approach_linked = Raise (NameError "datetime_to_string") /\
  CloseApproach_repr eros_approach_linked = Raise (NameError "datetime_to_string").
Proof.
  exact (proj1 time_str_raises_NameError_when_set eros_approach_linked eq_refl).
Defined.

Lemma serialize_is_flat_without_links_witness :
  exists m, CloseApproach_serialize eros_approach_linked = Ok m /\
    m !! "neo" = None /\
    forall k v, m !! k = Some v <->
      (k = "Datetime_utc" /\ v = PStr "1900-12-27 01:30") \/
      (k = "Distance_au" /\ v = PFloat (float_of_ratio 15 100)) \/
      (k = "Velocity_km_s" /\ v = PFloat (float_of_ratio 665 100)).
Proof.
  exact (proj1 (proj2 (proj2 serialize_is_flat_without_links))
           eros_approach_linked "1900-12-27 01:30" eq_refl).
Defined.

(** ** The writers *)

Section Writers.
Context `{Builtins} `{Helpers}.

(** The flattened mapping carries the capitalised field names of the
    two [serialize] methods, so it has no entry under the lower-case
    names that the writers read. *)
Lemma flatten_keys (result : CloseApproach) (content : gmap string pyval) :
  flatten result = Ok content ->
  content !! "potentially_hazardous" = None /\ content !! "name" = None.
Proof.
  unfold flatten, CloseApproach_serialize.
  destruct (call_global _ _) as [d|]; [|done]. cbn.
  destruct (neo result) as [| | | | | | | |n]; try done. cbn.
  intros [= <-]. unfold NearEarthObject_serialize.
  split; apply lookup_union_None; by simplify_map_eq.
Qed.

Lemma csv_format_content_raises (result : CloseApproach) :
  csv_format_content result =
    match flatten result with
    | Ok _ => Raise (KeyError "potentially_hazardous")
    | Raise e => Raise e
    end.
Proof.
  unfold csv_format_content.
  destruct (flatten result) as [content|e] eqn:E; [|done]. cbn.
  apply flatten_keys in E as [Hp _]. unfold getitem.
  by rewrite lookup_insert_ne, Hp.
Qed.

Lemma json_format_content_raises (result : CloseApproach) :
  json_format_content result =
    match flatten result with
    | Ok _ => Raise (KeyError "potentially_hazardous")
    | Raise e => Raise e
    end.
Proof.
  unfold json_format_content.
  destruct (flatten result) as [content|e] eqn:E; [|done]. cbn.
  apply flatten_keys in E as [Hp _]. unfold getitem.
  by rewrite lookup_insert_ne, Hp.
Qed.

(** Neither writer gets past the first result: the file of
    [write_to_csv] holds the header alone, and [write_to_json] has no
    list to write. *)
Lemma writers_raise_on_first_result (result : CloseApproach) (results : list CloseApproach) :
  exists e,
    write_to_csv (result :: results) = ([fieldnames], Raise e) /\
    write_to_json (result :: results) = Raise e /\
    (returns (flatten result) -> e = KeyError "potentially_hazardous").
Proof.
  unfold write_to_csv, write_to_json.
  change (write_rows (result :: results) [fieldnames])
    with (match content ← csv_format_content result; writerow content with
          | Ok row => write_rows results ([fieldnames] ++ [row])
          | Raise e => ([fieldnames], Raise e)
          end).
  change (mapM json_format_content (result :: results))
    with (y ← json_format_content result;
          k ← mapM json_format_content results; mret (y :: k)).
  rewrite csv_format_content_raises, json_format_content_raises.
  destruct (flatten result) as [content|e].
  - eexists. repeat split.
  - exists e. repeat split. by intros [? ?].
Qed.
End Writers.

(** C4 on the records of the example: both writers raise [KeyError] for
    the key [potentially_hazardous] at the first result, although the
    object and the approach serialize; the file of [write_to_csv] is
    left with the header and no record, so nothing is there to parse
    back. *)
Theorem writers_raise_KeyError_on_example :
  (exists m, flatten eros_approach_linked = Ok m) /\
  write_to_csv [eros_approach_linked] =
    ([fieldnames], Raise (KeyError "potentially_hazardous")) /\
  write_to_json [eros_approach_linked] = Raise (KeyError "potentially_hazardous").
Proof.
  split; [eexists; reflexivity | split; reflexivity].
Qed.

(** ** The database *)

Lemma satisfies_no_filters (c : CloseApproach) : satisfies no_filters c = true.
Proof. reflexivity. Qed.

Lemma filter_all {A} (P : A -> Prop) `{forall x, Decision (P x)} (l : list A) :
  (forall x, P x) -> filter P l = l.
Proof.
  intros HP. induction l as [|x l IH]; [done|].
  rewrite filter_cons_True by done. by rewrite IH.
Qed.

Lemma record_of_link index cs c : record_of (link index cs c) = record_of c.
Proof. reflexivity. Qed.

(** C8: [query] without filters yields the approaches of the database,
    all of them, once each and in their order; for a database that was
    constructed, these are the approaches it was constructed from, in
    the order they were given. *)
Theorem query_without_filters_yields_all :
  (forall db : NEODatabase, query db no_filters = db_approaches db) /\
  (forall neos approaches,
     map record_of (query (NEODatabase_init neos approaches) no_filters) =
       map record_of approaches) /\
  (forall neos approaches,
     length (query (NEODatabase_init neos approaches) no_filters) = length approaches).
Proof.
  assert (Hq : forall db : NEODatabase, query db no_filters = db_approaches db).
  { intros db. unfold query. apply filter_all. intros c. apply satisfies_no_filters. }
  split; [done|]. split; intros neos approaches; rewrite Hq; cbn.
  - rewrite map_map. apply map_ext. intros c. apply record_of_link.
  - by rewrite length_map.
Qed.

(** ** The loaders *)

Section Loaders.
Context `{Builtins} `{Helpers}.

Lemma positional_call_raises (args : list pyval) (x : pyval) (info : gmap string pyval) :
  NearEarthObject_new (x :: args) info = Raise TypeError /\
  CloseApproach_new (x :: args) info = Raise TypeError.
Proof. done. Qed.

(** What [load_neos] raises at a row, in the order in which the body of
    the loop reads the row. *)
Lemma load_neos_from_cons row reader neos :
  load_neos_from (row :: reader) neos =
    Raise (match row !! "pdes" with
           | None => KeyError "pdes"
           | Some _ =>
             match row !! "name" with
             | None => KeyError "name"
             | Some _ =>
               match row !! "diameter" with
               | None => KeyError "diameter"
               | Some cell =>
                 match (if truthy cell then py_float cell else Ok nan) with
                 | Raise e => e
                 | Ok _ =>
                   match row !! "hazardous" with
                   | None => KeyError "hazardous"
                   | Some _ => TypeError
                   end
                 end
               end
             end
           end).
Proof.
  cbn. unfold getitem.
  destruct (row !! "pdes"); [|done]. cbn.
  destruct (row !! "name"); [|done]. cbn.
  destruct (row !! "diameter") as [cell|]; [|done]. cbn.
  destruct (truthy cell); cbn.
  - destruct (py_float cell); [|done]. cbn. by destruct (row !! "hazardous").
  - by destruct (row !! "hazardous").
Qed.

Lemma load_approaches_from_cons item items approaches :
  load_approaches_from (item :: items) approaches =
    Raise (match subscript item "designation" with
           | Raise e => e
           | Ok _ =>
             match subscript item "time" with
             | Raise e => e
             | Ok _ =>
               match x ← subscript item "distance"; py_float x with
               | Raise e => e
               | Ok _ =>
                 match x ← subscript item "velocity"; py_float x with
                 | Raise e => e
                 | Ok _ => TypeError
                 end
               end
             end
           end).
Proof.
  cbn.
  destruct (subscript item "designation"); [|done]. cbn.
  destruct (subscript item "time"); [|done]. cbn.
  destruct (subscript item "distance") as [d|]; [|done]. cbn.
  destruct (py_float d); [|done]. cbn.
  destruct (subscript item "velocity") as [v|]; [|done]. cbn.
  by destruct (py_float v).
Qed.

(** C9, as the code has it: on a file with at least one record both
    loaders raise and return no records. The exception is the
    [TypeError] of the positional call when the first record has every
    field that the loader reads and its numbers convert; a record of
    the approaches' file that is no dictionary raises [TypeError] as
    well, at the first subscript. Before any constructor is called the
    fields are read in a fixed order, and the first one that the record
    lacks is the key of a [KeyError], unless a number read before it
    does not convert, which raises the error of the conversion,
    [ValueError] for text. *)
Theorem loaders_raise_on_first_record :
  (forall row reader, raises (load_neos (row :: reader))) /\
  (forall data item items, py_iter data = Ok (item :: items) ->
     raises (load_approaches data)) /\
  (forall row reader d n c h,
     row !! "pdes" = Some d -> row !! "name" = Some n ->
     row !! "diameter" = Some c -> (truthy c = true -> returns (py_float c)) ->
     row !! "hazardous" = Some h ->
     load_neos (row :: reader) = Raise TypeError) /\
  (forall data item items des t d v,
     py_iter data = Ok (item :: items) ->
     subscript item "designation" = Ok des -> subscript item "time" = Ok t ->
     subscript item "distance" = Ok d -> returns (py_float d) ->
     subscript item "velocity" = Ok v -> returns (py_float v) ->
     load_approaches data = Raise TypeError) /\
  (forall data item items,
     py_iter data = Ok (item :: items) ->
     match item with PDict _ => False | _ => True end ->
     load_approaches data = Raise TypeError) /\
  (forall (row : gmap string pyval) reader,
     (row !! "pdes" = None -> load_neos (row :: reader) = Raise (KeyError "pdes")) /\
     (is_Some (row !! "pdes") -> row !! "name" = None ->
        load_neos (row :: reader) = Raise (KeyError "name")) /\
     (is_Some (row !! "pdes") -> is_Some (row !! "name") -> row !! "diameter" = None ->
        load_neos (row :: reader) = Raise (KeyError "diameter")) /\
     (forall cell, is_Some (row !! "pdes") -> is_Some (row !! "name") ->
        row !! "diameter" = Some cell ->
        (truthy cell = true -> returns (py_float cell)) ->
        row !! "hazardous" = None ->
        load_neos (row :: reader) = Raise (KeyError "hazardous")) /\
     (forall cell e, is_Some (row !! "pdes") -> is_Some (row !! "name") ->
        row !! "diameter" = Some cell -> truthy cell = true -> py_float cell = Raise e ->
        load_neos (row :: reader) = Raise e) /\
     (forall s, is_Some (row !! "pdes") -> is_Some (row !! "name") ->
        row !! "diameter" = Some (PStr s) -> s <> "" -> float_of_str s = None ->
        load_neos (row :: reader) = Raise ValueError)) /\
  (forall data (d : list (string * pyval)) items,
     py_iter data = Ok (PDict d :: items) ->
     (assoc "designation" d = None ->
        load_approaches data = Raise (KeyError "designation")) /\
     (is_Some (assoc "designation" d) -> assoc "time" d = None ->
        load_approaches data = Raise (KeyError "time")) /\
     (is_Some (assoc "designation" d) -> is_Some (assoc "time" d) ->
      assoc "distance" d = None ->
        load_approaches data = Raise (KeyError "distance")) /\
     (forall x e, is_Some (assoc "designation" d) -> is_Some (assoc "time" d) ->
      assoc "distance" d = Some x -> py_float x = Raise e ->
        load_approaches data = Raise e) /\
     (forall x, is_Some (assoc "designation" d) -> is_Some (assoc "time" d) ->
      assoc "distance" d = Some x -> returns (py_float x) ->
      assoc "velocity" d = None ->
        load_approaches data = Raise (KeyError "velocity")) /\
     (forall x y e, is_Some (assoc "designation" d) -> is_Some (assoc "time" d) ->
      assoc "distance" d = Some x -> returns (py_float x) ->
      assoc "velocity" d = Some y -> py_float y = Raise e ->
        load_approaches data = Raise e) /\
     (forall s, is_Some (assoc "designation" d) -> is_Some (assoc "time" d) ->
      assoc "distance" d = Some (PStr s) -> float_of_str s = None ->
        load_approaches data = Raise ValueError)).
Proof.
  split; [|split; [|split; [|split; [|split; [|split]]]]].
  - intros row reader. unfold raises, load_neos. rewrite load_neos_from_cons.
    by eexists.
  - intros data item items Hit. unfold raises, load_approaches. rewrite Hit.
    cbn [mbind res_bind]. rewrite load_approaches_from_cons. by eexists.
  - intros row reader d n c h Hd Hn Hc Hf Hh. unfold load_neos.
    rewrite load_neos_from_cons, Hd, Hn, Hc, Hh.
    destruct (truthy c); [|done]. by destruct Hf as [f ->].
  - intros data item items des t d v Hit Hdes Ht Hd [fd Hfd] Hv [fv Hfv].
    unfold load_approaches. rewrite Hit. cbn [mbind res_bind].
    rewrite load_approaches_from_cons, Hdes, Ht, Hd, Hv. cbn. rewrite Hfd, Hfv. done.
  - intros data item items Hit Hitem. unfold load_approaches. rewrite Hit.
    cbn [mbind res_bind]. rewrite load_approaches_from_cons. by destruct item.
  - intros row reader. unfold load_neos. rewrite load_neos_from_cons.
    split; [|split; [|split; [|split; [|split]]]].
    + by intros ->.
    + by intros [? ->] ->.
    + by intros [? ->] [? ->] ->.
    + intros cell [? ->] [? ->] -> Hf ->. destruct (truthy cell); [|done].
      by destruct Hf as [f ->].
    + by intros cell e [? ->] [? ->] -> -> ->.
    + intros s [? ->] [? ->] -> Hs Hf. cbn.
      destruct (String.eqb_spec s "") as [|_]; [done|]. cbn. by rewrite Hf.
  - intros data d items Hit. unfold load_approaches. rewrite Hit.
    cbn [mbind res_bind]. rewrite load_approaches_from_cons. cbn [subscript].
    split; [|split; [|split; [|split; [|split; [|split]]]]].
    + by intros ->.
    + by intros [? ->] ->.
    + by intros [? ->] [? ->] ->.
    + intros x e [? ->] [? ->] -> Hx. cbn. by rewrite Hx.
    + intros x [? ->] [? ->] -> [f Hx] ->. cbn. by rewrite Hx.
    + intros x y e [? ->] [? ->] -> [f Hx] -> Hy. cbn. by rewrite Hx, Hy.
    + intros s [? ->] [? ->] -> Hs. cbn. by rewrite Hs.
Qed.
End Loaders.

(** C9, as stated, fails on a row under the columns of the data set, and
    on an entry under its short keys: the loaders raise [KeyError], for
    the column or the key that is not there, before any constructor is
    called; a diameter that is no number raises [ValueError]. *)
Lemma loaders_raise_KeyError_on_dataset_columns :
  load_neos [eros_row_pha] = Raise (KeyError "hazardous") /\
  load_approaches (PList [eros_entry_short]) = Raise (KeyError "designation") /\
  load_neos [<["diameter" := PStr "unknown"]> eros_row] = Raise ValueError.
Proof. repeat split; reflexivity. Qed.

Lemma loaders_raise_on_first_record_witness :
  load_neos [eros_row] = Raise TypeError /\
  load_approaches (PList [eros_entry]) = Raise TypeError.
Proof.
  split.
  - apply (proj1 (proj2 (proj2 loaders_raise_on_first_record))
             eros_row [] (PStr "433") (PStr "Eros") (PStr "16.84") (PStr "N"));
      try reflexivity.
    intros _. eexists. reflexivity.
  - apply (proj1 (proj2 (proj2 (proj2 loaders_raise_on_first_record)))
             (PList [eros_entry]) eros_entry [] (PStr "433") (PStr "1900-Dec-27 01:30")
             (PStr "0.15") (PStr "6.65"));
      try reflexivity; eexists; reflexivity.
Defined.

(** * Further properties of the code *)

(** ** The constructors *)

Section MoreConstruction.
Context `{Builtins} `{Helpers}.

Lemma checked_time_returns (v : pyval) :
  returns (checked_time v) <->
    truthy v = false \/ exists t, cd_to_datetime v = Ok (PDatetime t).
Proof.
  unfold checked_time, returns.
  change (call_global "cd_to_datetime" v) with (cd_to_datetime v).
  destruct (truthy v); split.
  - intros [t Ht]. right. destruct (cd_to_datetime v) as [t'|]; [|done].
    cbn in Ht. destruct t'; try done. by eexists.
  - intros [|[t ->]]; [done|]. by eexists.
  - by left.
  - intros _. by eexists.
Qed.

Lemma checked_float_returns (v : pyval) :
  returns (checked_float v) <-> is_float v = true.
Proof.
  unfold returns. destruct v; cbn; split; try done; try by intros [? ?].
  intros _. by eexists.
Qed.

Lemma is_float_default (info : gmap string pyval) (k : string) :
  is_float (get_or info k (PFloat nan)) = true <->
    forall v, info !! k = Some v -> is_float v = true.
Proof.
  unfold get_or. destruct (info !! k) as [v|]; cbn; split; try done.
  - by intros Hv v' [= <-].
  - intros Hv. by apply Hv.
Qed.

(** X1: [CloseApproach.__init__] returns an approach exactly when the
    time is falsy or [cd_to_datetime] turns it into a date-time, and the
    distance and the velocity, where supplied, are floats; whenever it
    does not, what it raises is a [ValueError]. *)
Theorem CloseApproach_init_returns_iff (info : gmap string pyval) :
  (returns (CloseApproach_init info) <->
     (truthy (get info "time") = false \/
      exists t, cd_to_datetime (get info "time") = Ok (PDatetime t)) /\
     (forall v, info !! "distance" = Some v -> is_float v = true) /\
     (forall v, info !! "velocity" = Some v -> is_float v = true)) /\
  (forall e, CloseApproach_init info = Raise e -> e = ValueError).
Proof.
  split; [|apply CloseApproach_init_error].
  rewrite <- checked_time_returns, <- !is_float_default, <- !checked_float_returns.
  rewrite CloseApproach_init_unfold. unfold returns. split.
  - intros [c Hc].
    destruct (checked_time _) as [t|]; [|done]. cbn in Hc.
    destruct (checked_float (get_or info "distance" _)) as [d|]; [|done]. cbn in Hc.
    destruct (checked_float (get_or info "velocity" _)) as [v|]; [|done].
    repeat split; by eexists.
  - intros ([t ->] & [d ->] & [v ->]). by eexists.
Qed.

(** X2: [NearEarthObject.__init__] raises only through the conversion of
    the diameter. A diameter that is missing, a float or a boolean never
    raises; text raises [ValueError] exactly when [float()] rejects it;
    an integer can raise [OverflowError] only; and a diameter that is
    [None], a list, a dictionary, a date-time or an object raises
    [TypeError], so that passing [None] differs from leaving it out. *)
Theorem NearEarthObject_init_raises_by_diameter (info : gmap string pyval) :
  (info !! "diameter" = None -> returns (NearEarthObject_init info)) /\
  (forall f, info !! "diameter" = Some (PFloat f) ->
     NearEarthObject_init info =
       Ok (mkNEO (get info "designation") (get info "name") f (get info "hazardous") [])) /\
  (forall b, info !! "diameter" = Some (PBool b) -> returns (NearEarthObject_init info)) /\
  (forall s, info !! "diameter" = Some (PStr s) ->
     (NearEarthObject_init info = Raise ValueError <-> float_of_str s = None) /\
     (forall e, NearEarthObject_init info = Raise e -> e = ValueError)) /\
  (forall z e, info !! "diameter" = Some (PInt z) ->
     NearEarthObject_init info = Raise e -> e = OverflowError) /\
  (forall v, info !! "diameter" = Some v ->
     match v with
     | PNone | PList _ | PDict _ | PDatetime _ | PNeo _ => True
     | _ => False
     end ->
     NearEarthObject_init info = Raise TypeError).
Proof.
  unfold NearEarthObject_init, returns.
  split; [|split; [|split; [|split; [|split]]]].
  - intros Hd. rewrite (get_or_missing _ _ _ Hd). by eexists.
  - intros f Hd. by rewrite (get_or_present _ _ _ _ Hd).
  - intros b Hd. rewrite (get_or_present _ _ _ _ Hd). destruct b; by eexists.
  - intros s Hd. rewrite (get_or_present _ _ _ _ Hd). cbn.
    destruct (float_of_str s) as [f|]; cbn; split; try done.
    by intros e [= <-].
  - intros z e Hd. rewrite (get_or_present _ _ _ _ Hd). cbn.
    unfold float_of_int. destruct (binary_normalize _ _ _ _ _); cbn; try done.
    by intros [= <-].
  - intros v Hd Hv. rewrite (get_or_present _ _ _ _ Hd). by destruct v.
Qed.

(** X3: neither constructor reads back what [serialize] returns. The
    mapping of [serialize] carries capitalised field names, which the
    constructors do not look up, so constructing from it gives the
    object of the defaults, whatever was serialized. *)
Theorem constructors_ignore_serialized_keys :
  (forall n : NearEarthObject,
     NearEarthObject_init (NearEarthObject_serialize n) =
       Ok (mkNEO PNone PNone nan PNone [])) /\
  (forall (c : CloseApproach) m, CloseApproach_serialize c = Ok m ->
     CloseApproach_init m = Ok (mkCA PNone PNone nan nan PNone)).
Proof.
  split.
  - intros n. reflexivity.
  - intros c m. unfold CloseApproach_serialize.
    destruct (call_global _ _) as [d|]; [|done]. cbn. intros [= <-].
    reflexivity.
Qed.

(** X4: an object constructed from a mapping serializes to the values
    of the mapping, under the capitalised field names, with the diameter
    as the float it was converted to. *)
Theorem serialize_after_init (info : gmap string pyval) (n : NearEarthObject) :
  NearEarthObject_init info = Ok n ->
  NearEarthObject_serialize n !! "Designation" = Some (get info "designation") /\
  NearEarthObject_serialize n !! "Name" = Some (get info "name") /\
  NearEarthObject_serialize n !! "Potentially_hazardous" = Some (get info "hazardous") /\
  NearEarthObject_serialize n !! "Diameter_km" = Some (PFloat (diameter n)) /\
  py_float (get_or info "diameter" (PFloat nan)) = Ok (diameter n).
Proof.
  intros (Hd & <- & <- & <- & _)%NearEarthObject_init_Ok. by repeat split.
Qed.

(** X5: an object constructed without a diameter is described without
    one, and one constructed without a hazard flag is described as not
    potentially hazardous, with its diameter or without. *)
Theorem str_after_init_without_diameter (info : gmap string pyval) (n : NearEarthObject) :
  NearEarthObject_init info = Ok n ->
  (info !! "diameter" = None ->
     NearEarthObject_str n =
       "NEO " +:+ NearEarthObject_fullname n +:+ ", " +:+
       (if truthy (get info "hazardous") then "is" else "is not") +:+
       " potentially hazardous.") /\
  (info !! "hazardous" = None ->
     NearEarthObject_str n =
       if isnan (diameter n)
       then "NEO " +:+ NearEarthObject_fullname n +:+ ", is not potentially hazardous."
       else "NEO " +:+ NearEarthObject_fullname n +:+ " has a diameter of " +:+
            format_f 3 (diameter n) +:+ " km and is not potentially hazardous.") /\
  (info !! "diameter" = None -> info !! "hazardous" = None ->
     NearEarthObject_str n =
       "NEO " +:+ NearEarthObject_fullname n +:+ ", is not potentially hazardous.").
Proof.
  intros (Hd & _ & _ & Hh & _)%NearEarthObject_init_Ok.
  unfold NearEarthObject_str, NEO_str. rewrite Hh.
  split; [|split].
  - intros Hdia. rewrite (get_or_missing _ _ _ Hdia) in Hd. by injection Hd as <-.
  - intros Hhaz. rewrite (get_missing _ _ Hhaz). by destruct (isnan (diameter n)).
  - intros Hdia Hhaz. rewrite (get_or_missing _ _ _ Hdia) in Hd. injection Hd as <-.
    by rewrite (get_missing _ _ Hhaz).
Qed.

(** X6: an object constructed without a designation takes the text
    [None] for it in its full name. *)
Theorem fullname_after_init_without_designation
  (info : gmap string pyval) (n : NearEarthObject) :
  NearEarthObject_init info = Ok n ->
  info !! "designation" = None ->
  NearEarthObject_fullname n =
    if truthy (get info "name")
    then "None (" +:+ py_str (get info "name") +:+ ")"
    else "None".
Proof.
  intros (_ & Hdes & Hname & _)%NearEarthObject_init_Ok Hmiss.
  unfold NearEarthObject_fullname, NEO_fullname.
  rewrite Hdes, Hname, (get_missing _ _ Hmiss). done.
Qed.
(** X17: the hazard flag is stored as it is given and tested for its
    truth value, so an object constructed with a flag that is non-empty
    text, whatever the text, is described as potentially hazardous. *)
Theorem text_hazard_flag_reads_as_hazardous
  (info : gmap string pyval) (n : NearEarthObject) (s : string) :
  NearEarthObject_init info = Ok n ->
  info !! "hazardous" = Some (PStr s) -> s <> "" ->
  (isnan (diameter n) = true ->
     NearEarthObject_str n =
       "NEO " +:+ NearEarthObject_fullname n +:+ ", is potentially hazardous.") /\
  (isnan (diameter n) = false ->
     NearEarthObject_str n =
       "NEO " +:+ NearEarthObject_fullname n +:+ " has a diameter of " +:+
       format_f 3 (diameter n) +:+ " km and is potentially hazardous.").
Proof.
  intros (_ & _ & _ & Hh & _)%NearEarthObject_init_Ok Hflag Hs.
  rewrite (get_present _ _ _ Hflag) in Hh.
  unfold NearEarthObject_str, NEO_str. rewrite Hh. cbn [truthy].
  destruct (String.eqb_spec s "") as [|_]; [done|]. cbn [negb].
  split; by intros ->.
Qed.
End MoreConstruction.

(** ** The text of an approach *)

Section MoreText.
Context `{Builtins} `{Helpers}.

Lemma time_str_cases (c : CloseApproach) :
  CloseApproach_time_str c =
    if truthy (time c) then Raise (NameError "datetime_to_string")
    else Ok (PStr "Unknown time").
Proof. unfold CloseApproach_time_str. by destruct (truthy (time c)). Qed.

(** X7: [str] of an approach returns exactly when the approach has no
    time and is linked to an object, and [repr] exactly when it has no
    time; [time_str] never returns a formatted time, the one text it
    returns is ["Unknown time"]; and an approach with no time and no
    object raises [AttributeError] in [str]. *)
Theorem approach_text_returns_iff (c : CloseApproach) :
  (returns (CloseApproach_str c) <->
     truthy (time c) = false /\ exists n, neo c = PNeo n) /\
  (returns (CloseApproach_repr c) <-> truthy (time c) = false) /\
  (forall v, CloseApproach_time_str c = Ok v -> v = PStr "Unknown time") /\
  (truthy (time c) = false -> (forall n, neo c <> PNeo n) ->
     CloseApproach_str c = Raise (AttributeError "fullname")).
Proof.
  unfold CloseApproach_str, CloseApproach_repr, returns.
  rewrite time_str_cases.
  split; [|split; [|split]].
  - destruct (truthy (time c)); cbn.
    + split; [by intros [? ?] | by intros [? _]].
    + destruct (neo c) as [| | | | | | | |n]; cbn; split;
        try (by intros [? ?]); try (by intros [_ [? ?]]).
      * intros _. split; [done | by eexists].
      * intros _. by eexists.
  - destruct (truthy (time c)); cbn; split; try done; try by intros [? ?].
    intros _. by eexists.
  - intros v. destruct (truthy (time c)); [done | by intros [= <-]].
  - intros -> Hn. cbn. destruct (neo c) as [| | | | | | | |n]; try done.
    by destruct (Hn n).
Qed.

(** X8: an approach that the constructor built from a mapping without a
    [neo] entry, as the loaders would build it, cannot be written out by
    [str]: that raises [NameError] when the time is set and
    [AttributeError] when it is not. *)
Theorem unlinked_approach_str_raises (info : gmap string pyval) (c : CloseApproach) :
  CloseApproach_init info = Ok c ->
  info !! "neo" = None ->
  CloseApproach_str c =
    if truthy (time c) then Raise (NameError "datetime_to_string")
    else Raise (AttributeError "fullname").
Proof.
  intros (_ & _ & _ & _ & Hneo)%CloseApproach_init_Ok Hmiss.
  rewrite (get_or_missing _ _ _ Hmiss) in Hneo.
  unfold CloseApproach_str. rewrite time_str_cases, Hneo.
  by destruct (truthy (time c)).
Qed.
End MoreText.

(** ** The loaders *)

Section MoreLoaders.
Context `{Builtins} `{Helpers}.

(** X9: the loaders return only on an input without records, and then
    they return the empty list: no list of objects or of approaches that
    either loader returns has an element. *)
Theorem loaders_return_only_empty :
  (forall reader neos, load_neos reader = Ok neos <-> reader = [] /\ neos = []) /\
  (forall data approaches,
     load_approaches data = Ok approaches <-> py_iter data = Ok [] /\ approaches = []).
Proof.
  split.
  - intros reader neos. unfold load_neos. destruct reader as [|row reader].
    + cbn. split; [by intros [= <-] | by intros [_ ->]].
    + rewrite load_neos_from_cons. split; [done | by intros [? _]].
  - intros data approaches. unfold load_approaches.
    destruct (py_iter data) as [[|item items]|e]; cbn [mbind res_bind].
    + cbn. split; [by intros [= <-] | by intros [_ ->]].
    + rewrite load_approaches_from_cons. split; [done | by intros [? _]].
    + split; [done | by intros [? _]].
Qed.

(** X10: the loaders stop at the first record: what follows it in the
    file has no effect on the outcome. *)
Theorem loaders_read_first_record_only :
  (forall row reader, load_neos (row :: reader) = load_neos [row]) /\
  (forall item items,
     load_approaches (PList (item :: items)) = load_approaches (PList [item])).
Proof.
  split.
  - intros row reader. unfold load_neos. by rewrite !load_neos_from_cons.
  - intros item items. unfold load_approaches. cbn [py_iter mbind res_bind].
    by rewrite !load_approaches_from_cons.
Qed.

(** X11: [load_neos] reads the columns of a row in the order [pdes],
    [name], [diameter], [hazardous], and the first one that the row lacks
    is the key of the [KeyError] it raises; an empty diameter cell is
    passed over without conversion, and one that does not convert raises
    before the hazard flag is read. *)
Theorem load_neos_first_missing_column (row : gmap string pyval) reader :
  (row !! "pdes" = None -> load_neos (row :: reader) = Raise (KeyError "pdes")) /\
  (is_Some (row !! "pdes") -> row !! "name" = None ->
     load_neos (row :: reader) = Raise (KeyError "name")) /\
  (is_Some (row !! "pdes") -> is_Some (row !! "name") -> row !! "diameter" = None ->
     load_neos (row :: reader) = Raise (KeyError "diameter")) /\
  (forall cell, is_Some (row !! "pdes") -> is_Some (row !! "name") ->
     row !! "diameter" = Some cell -> (truthy cell = true -> returns (py_float cell)) ->
     row !! "hazardous" = None ->
     load_neos (row :: reader) = Raise (KeyError "hazardous")) /\
  (forall cell e, is_Some (row !! "pdes") -> is_Some (row !! "name") ->
     row !! "diameter" = Some cell -> truthy cell = true -> py_float cell = Raise e ->
     load_neos (row :: reader) = Raise e).
Proof.
  unfold load_neos. rewrite load_neos_from_cons.
  split; [|split; [|split; [|split]]].
  - by intros ->.
  - by intros [? ->] ->.
  - by intros [? ->] [? ->] ->.
  - intros cell [? ->] [? ->] -> Hf ->. destruct (truthy cell); [|done].
    by destruct Hf as [f ->].
  - by intros cell e [? ->] [? ->] -> -> ->.
Qed.

(** X12: [load_approaches] on a document that is not a list. A
    dictionary with at least one key, as the top level of the data set's
    file is, and a non-empty text raise [TypeError] at the first
    subscript, because iteration yields text; [None], a number and a
    boolean raise [TypeError] because they cannot be iterated; an empty
    dictionary and an empty text give the empty list. *)
Theorem load_approaches_not_a_list :
  (forall k v d, load_approaches (PDict ((k, v) :: d)) = Raise TypeError) /\
  (forall a s, load_approaches (PStr (String a s)) = Raise TypeError) /\
  load_approaches PNone = Raise TypeError /\
  (forall z, load_approaches (PInt z) = Raise TypeError) /\
  (forall f, load_approaches (PFloat f) = Raise TypeError) /\
  (forall b, load_approaches (PBool b) = Raise TypeError) /\
  load_approaches (PDict []) = Ok [] /\
  load_approaches (PStr "") = Ok [].
Proof. by repeat split. Qed.

(** X13: [load_approaches] reads the keys of an entry in the order
    [designation], [time], [distance], [velocity], converting the
    distance before it reads the velocity: the first key that the entry
    lacks is the key of the [KeyError], unless a distance that does not
    convert has raised before. *)
Theorem load_approaches_first_missing_key (d : list (string * pyval)) items :
  (assoc "designation" d = None ->
     load_approaches (PList (PDict d :: items)) = Raise (KeyError "designation")) /\
  (is_Some (assoc "designation" d) -> assoc "time" d = None ->
     load_approaches (PList (PDict d :: items)) = Raise (KeyError "time")) /\
  (is_Some (assoc "designation" d) -> is_Some (assoc "time" d) ->
   assoc "distance" d = None ->
     load_approaches (PList (PDict d :: items)) = Raise (KeyError "distance")) /\
  (forall x e, is_Some (assoc "designation" d) -> is_Some (assoc "time" d) ->
   assoc "distance" d = Some x -> py_float x = Raise e ->
     load_approaches (PList (PDict d :: items)) = Raise e) /\
  (forall x, is_Some (assoc "designation" d) -> is_Some (assoc "time" d) ->
   assoc "distance" d = Some x -> returns (py_float x) ->
   assoc "velocity" d = None ->
     load_approaches (PList (PDict d :: items)) = Raise (KeyError "velocity")).
Proof.
  unfold load_approaches. cbn [py_iter mbind res_bind].
  rewrite load_approaches_from_cons. cbn [subscript].
  split; [|split; [|split; [|split]]].
  - by intros ->.
  - by intros [? ->] ->.
  - by intros [? ->] [? ->] ->.
  - intros x e [? ->] [? ->] -> Hx. cbn. by rewrite Hx.
  - intros x [? ->] [? ->] -> [f Hx] ->. cbn. by rewrite Hx.
Qed.
End MoreLoaders.

(** ** The writers *)

Section MoreWriters.
Context `{Builtins} `{Helpers}.

Lemma flatten_cases (result : CloseApproach) :
  flatten result =
    match datetime_to_str (time result) with
    | Raise e => Raise e
    | Ok s =>
        match neo result with
        | PNeo n =>
            Ok (NearEarthObject_serialize n ∪
                {[ "Datetime_utc" := PStr s;
                   "Distance_au" := PFloat (distance result);
                   "Velocity_km_s" := PFloat (velocity result) ]})
        | _ => Raise (AttributeError "serialize")
        end
    end.
Proof.
  unfold flatten, CloseApproach_serialize.
  change (call_global "datetime_to_str" (time result))
    with (s ← datetime_to_str (time result); mret (PStr s)).
  destruct (datetime_to_str (time result)) as [s|e]; [|done]. cbn.
  by destruct (neo result).
Qed.

Lemma fieldnames_not_capitalised (k : string) :
  k ∈ fieldnames ->
  k <> "Designation" /\ k <> "Name" /\ k <> "Diameter_km" /\
  k <> "Potentially_hazardous" /\ k <> "Datetime_utc" /\
  k <> "Distance_au" /\ k <> "Velocity_km_s".
Proof.
  unfold fieldnames. rewrite !elem_of_cons, elem_of_nil.
  intros [->|[->|[->|[->|[->|[->|[->|[]]]]]]]]; by repeat split.
Qed.

Lemma writers_cons (result : CloseApproach) (results : list CloseApproach) :
  let e := match flatten result with
           | Ok _ => KeyError "potentially_hazardous"
           | Raise e => e
           end in
  write_to_csv (result :: results) = ([fieldnames], Raise e) /\
  write_to_json (result :: results) = Raise e.
Proof.
  unfold write_to_csv, write_to_json.
  change (write_rows (result :: results) [fieldnames])
    with (match content ← csv_format_content result; writerow content with
          | Ok row => write_rows results ([fieldnames] ++ [row])
          | Raise e => ([fieldnames], Raise e)
          end).
  change (mapM json_format_content (result :: results))
    with (y ← json_format_content result;
          k ← mapM json_format_content results; mret (y :: k)).
  rewrite csv_format_content_raises, json_format_content_raises.
  by destruct (flatten result).
Qed.

(** X14: whatever the results, the file that [write_to_csv] leaves holds
    the header row and nothing else; [write_to_csv] ends without an
    exception, and [write_to_json] has a list to write, exactly when
    there are no results, and that list is empty. *)
Theorem writers_write_header_only (results : list CloseApproach) :
  fst (write_to_csv results) = [fieldnames] /\
  (snd (write_to_csv results) = Ok tt <-> results = []) /\
  (forall data, write_to_json results = Ok data <-> results = [] /\ data = PList []).
Proof.
  destruct results as [|result results].
  - split; [done|]. split; [done|]. intros data. cbn. split.
    + by intros [= <-].
    + by intros [_ ->].
  - destruct (writers_cons result results) as [-> ->].
    split; [done|]. split; [done|]. intros data. split; [done | by intros [? _]].
Qed.

(** X15: the exception that stops the writers at the first result. It is
    the one that [datetime_to_str] raises on the time of the result, if
    it raises; otherwise [AttributeError] if the result is not linked to
    an object; otherwise [KeyError] for [potentially_hazardous]. *)
Theorem writers_first_error (result : CloseApproach) (results : list CloseApproach) :
  (forall e, datetime_to_str (time result) = Raise e ->
     write_to_csv (result :: results) = ([fieldnames], Raise e) /\
     write_to_json (result :: results) = Raise e) /\
  (returns (datetime_to_str (time result)) -> (forall n, neo result <> PNeo n) ->
     write_to_csv (result :: results) = ([fieldnames], Raise (AttributeError "serialize")) /\
     write_to_json (result :: results) = Raise (AttributeError "serialize")) /\
  (forall n, returns (datetime_to_str (time result)) -> neo result = PNeo n ->
     write_to_csv (result :: results) =
       ([fieldnames], Raise (KeyError "potentially_hazardous")) /\
     write_to_json (result :: results) = Raise (KeyError "potentially_hazardous")).
Proof.
  destruct (writers_cons result results) as [-> ->]. rewrite flatten_cases.
  split; [|split].
  - by intros e ->.
  - intros [s ->] Hn. destruct (neo result) as [| | | | | | | |n]; try done.
    by destruct (Hn n).
  - by intros n [s ->] ->.
Qed.

(** X16: the mapping that the writers flatten a result into has the
    seven capitalised field names of the two [serialize] methods as its
    keys, and none of the names of the header; [DictWriter.writerow]
    would reject it with a [ValueError] for its keys. *)
Theorem flatten_keys_are_not_fieldnames (result : CloseApproach) (m : gmap string pyval) :
  flatten result = Ok m ->
  dom m = {[ "Designation"; "Name"; "Diameter_km"; "Potentially_hazardous";
             "Datetime_utc"; "Distance_au"; "Velocity_km_s" ]} /\
  (forall k, k ∈ fieldnames -> m !! k = None) /\
  writerow m = Raise ValueError.
Proof.
  rewrite flatten_cases.
  destruct (datetime_to_str (time result)) as [s|]; [|done].
  destruct (neo result) as [| | | | | | | |n]; try done. intros [= <-].
  assert (Hdom : dom (NearEarthObject_serialize n ∪
                      ({[ "Datetime_utc" := PStr s;
                          "Distance_au" := PFloat (distance result);
                          "Velocity_km_s" := PFloat (velocity result) ]} : gmap string pyval))
                 = {[ "Designation"; "Name"; "Diameter_km"; "Potentially_hazardous";
                      "Datetime_utc"; "Distance_au"; "Velocity_km_s" ]}).
  { unfold NearEarthObject_serialize.
    rewrite dom_union_L, !dom_insert_L, !dom_singleton_L. set_solver. }
  split; [done|]. split.
  - intros k Hk. apply not_elem_of_dom. rewrite Hdom.
    apply fieldnames_not_capitalised in Hk as (? & ? & ? & ? & ? & ? & ?).
    rewrite !elem_of_union, !elem_of_singleton. tauto.
  - unfold writerow. case_decide as Hsub; [|done]. exfalso.
    assert (Hin : "Designation" ∈ (list_to_set fieldnames : gset string)).
    { apply Hsub. rewrite Hdom. set_solver. }
    apply elem_of_list_to_set, fieldnames_not_capitalised in Hin. by destruct Hin.
Qed.
End MoreWriters.

(** ** The further properties on the records of the example *)

Lemma CloseApproach_init_returns_iff_witness :
  returns (CloseApproach_init eros_approach_info).
Proof.
  apply (proj1 (CloseApproach_init_returns_iff eros_approach_info)).
  split; [right; eexists; reflexivity|].
  split; intros v Hv; vm_compute in Hv; by injection Hv as <-.
Defined.

Lemma NearEarthObject_init_raises_by_diameter_witness :
  NearEarthObject_init (<["diameter" := PNone]> eros_info) = Raise TypeError.
Proof.
  apply (proj2 (proj2 (proj2 (proj2 (proj2
    (NearEarthObject_init_raises_by_diameter (<["diameter" := PNone]> eros_info))))))
    PNone); [reflexivity | exact I].
Defined.

Lemma constructors_ignore_serialized_keys_witness :
  exists m, CloseApproach_serialize eros_approach_linked = Ok m /\
    CloseApproach_init m = Ok (mkCA PNone PNone nan nan PNone).
Proof.
  eexists. split; [reflexivity|].
  refine (proj2 constructors_ignore_serialized_keys eros_approach_linked _ _).
  reflexivity.
Defined.

Lemma serialize_after_init_witness :
  NearEarthObject_serialize eros !! "Designation" = Some (PStr "433").
Proof.
  exact (proj1 (serialize_after_init eros_info eros eq_refl)).
Defined.

Lemma str_after_init_without_diameter_witness :
  NearEarthObject_str (mkNEO (PStr "433") (PStr "Eros") nan (PBool false) []) =
    "NEO 433 (Eros), is not potentially hazardous." /\
  NearEarthObject_str (mkNEO (PStr "433") (PStr "Eros") (float_of_ratio 1684 100) PNone []) =
    "NEO 433 (Eros) has a diameter of 16.840 km and is not potentially hazardous.".
Proof.
  split.
  - exact (proj1 (str_after_init_without_diameter (delete "diameter" eros_info)
                    (mkNEO (PStr "433") (PStr "Eros") nan (PBool false) []) eq_refl)
             eq_refl).
  - exact (proj1 (proj2 (str_after_init_without_diameter (delete "hazardous" eros_info)
                    (mkNEO (PStr "433") (PStr "Eros") (float_of_ratio 1684 100) PNone [])
                    eq_refl)) eq_refl).
Defined.

Lemma fullname_after_init_without_designation_witness :
  NearEarthObject_fullname
    (mkNEO PNone (PStr "Eros") (float_of_ratio 1684 100) (PBool false) []) = "None (Eros)".
Proof.
  exact (fullname_after_init_without_designation (delete "designation" eros_info)
           (mkNEO PNone (PStr "Eros") (float_of_ratio 1684 100) (PBool false) [])
           eq_refl eq_refl).
Defined.

Lemma approach_text_returns_iff_witness :
  returns (CloseApproach_str eros_approach_untimed).
Proof.
  apply (proj1 (approach_text_returns_iff eros_approach_untimed)).
  split; [reflexivity | by eexists].
Defined.

Lemma unlinked_approach_str_raises_witness :
  CloseApproach_str eros_approach = Raise (NameError "datetime_to_string").
Proof.
  exact (unlinked_approach_str_raises eros_approach_info eros_approach eq_refl eq_refl).
Defined.

Lemma loaders_return_only_empty_witness :
  load_neos [] = Ok [] /\ load_approaches (PList []) = Ok [].
Proof.
  split.
  - apply (proj1 loaders_return_only_empty). by split.
  - apply (proj2 loaders_return_only_empty). by split.
Defined.

Lemma load_neos_first_missing_column_witness :
  load_neos [eros_row_pha] = Raise (KeyError "hazardous").
Proof.
  apply (proj1 (proj2 (proj2 (proj2 (load_neos_first_missing_column eros_row_pha []))))
           (PStr "16.84")); try reflexivity; by eexists.
Defined.

Lemma load_approaches_first_missing_key_witness :
  load_approaches (PList [eros_entry_short]) = Raise (KeyError "designation").
Proof.
  exact (proj1 (load_approaches_first_missing_key
                  [ ("des", PStr "433"); ("cd", PStr "1900-Dec-27 01:30");
                    ("dist", PStr "0.15"); ("v_rel", PStr "6.65") ] []) eq_refl).
Defined.

Lemma writers_write_header_only_witness :
  snd (write_to_csv []) = Ok tt.
Proof.
  by apply (proj1 (proj2 (writers_write_header_only []))).
Defined.

Lemma writers_first_error_witness :
  write_to_csv [eros_approach_untimed] = ([fieldnames], Raise TypeError) /\
  write_to_json [eros_approach_untimed] = Raise TypeError.
Proof.
  exact (proj1 (writers_first_error eros_approach_untimed []) TypeError eq_refl).
Defined.

Lemma flatten_keys_are_not_fieldnames_witness :
  exists m, flatten eros_approach_linked = Ok m /\ writerow m = Raise ValueError.
Proof.
  eexists. split; [reflexivity|].
  refine (proj2 (proj2 (flatten_keys_are_not_fieldnames eros_approach_linked _ _))).
  reflexivity.
Defined.

Lemma text_hazard_flag_reads_as_hazardous_witness :
  NearEarthObject_str (mkNEO (PStr "433") (PStr "Eros") (float_of_ratio 1684 100) (PStr "N") []) =
    "NEO 433 (Eros) has a diameter of 16.840 km and is potentially hazardous.".
Proof.
  refine (proj2 (text_hazard_flag_reads_as_hazardous
                   (<["hazardous" := PStr "N"]> eros_info)
                   (mkNEO (PStr "433") (PStr "Eros") (float_of_ratio 1684 100) (PStr "N") [])
                   "N" eq_refl eq_refl _) eq_refl).
  discriminate.
Defined.
